(** * Ordia: the state store of the dashboard (hook [useOrdiaaState])

    A shallow embedding of the store defined in [frontend/src/App.tsx]
    (the hook [useOrdiaaState]) together with the properties of its
    queries and mutations.

    Every mutation of the hook has the shape [setState((prev) => next)]:
    it is embedded as a function from the previous state to the next
    one.  Every query reads the current [state]: it is embedded as a
    function of the state.  The two impure reads of the hook, [Date.now()]
    and [new Date()], are explicit arguments ([now], [today]); the time
    zone of the host is a parameter ([Host]). *)

From Stdlib Require Import ZArith Floats Uint63 Ascii.
From stdpp Require Import base strings gmap list pretty.

Open Scope Z_scope.

(** ** The JavaScript host *)

(** *** Numbers

    JavaScript numbers are IEEE 754 binary64 values: the kernel's
    primitive floats.  Lengths and counters are integers below [2^53],
    which [number_of_nat] converts exactly. *)

Definition number_of_Z (z : Z) : float := PrimFloat.of_uint63 (Uint63.of_Z z).

Definition number_of_nat (n : nat) : float := number_of_Z (Z.of_nat n).

(** [Math.round(x)]: the integer closest to [x], a tie going to the one
    closer to plus infinity.  A finite [x] is [v * 2^e] for its signed
    mantissa [v], so the result is [floor (x + 1/2)] computed on
    integers.  [Math.round] keeps NaN and the infinities, which are not
    integers; the store only rounds a quotient by a non-zero length
    times [100], and the model sends them to [0]. *)
Definition Math_round (x : float) : Z :=
  match Prim2SF x with
  | S754_finite s m e =>
      let v := if s then Z.neg m else Z.pos m in
      if 0 <=? e then v * 2 ^ e else (2 * v + 2 ^ (- e)) / 2 ^ (- e + 1)
  | _ => 0
  end.

(** *** Dates

    The store looks at a [Date] only through the host's local time zone
    ([getDate], [setDate], [toLocaleDateString], and [formatDate], which
    the specification defines on the local calendar day).  A date is
    kept as that local view: the number of the local calendar day,
    counted from 1970-01-01, and the milliseconds elapsed in that day. *)
Record JsDate := mkDate { localDay : Z; msInDay : Z }.

(** The proleptic Gregorian calendar: year, month (1..12) and day of the
    month (1..31) of a day number. *)
Definition civil_from_days (z : Z) : Z * Z * Z :=
  let z := z + 719468 in
  let era := z / 146097 in
  let doe := z - era * 146097 in
  let yoe := (doe - doe / 1460 + doe / 36524 - doe / 146096) / 365 in
  let doy := doe - (365 * yoe + yoe / 4 - yoe / 100) in
  let mp := (5 * doy + 2) / 153 in
  let d := doy - (153 * mp + 2) / 5 + 1 in
  let m := if mp <? 10 then mp + 3 else mp - 9 in
  let y := yoe + era * 400 in
  (if m <=? 2 then y + 1 else y, m, d).

Definition getFullYear (d : JsDate) : Z := (civil_from_days (localDay d)).1.1.
Definition getMonth1 (d : JsDate) : Z := (civil_from_days (localDay d)).1.2.

(** [date.getDate()]: the day of the month. *)
Definition getDate (d : JsDate) : Z := (civil_from_days (localDay d)).2.

(** *** The time zone of the host

    A [Date] holds a time value, the milliseconds since the epoch in
    UTC, and every local-time method goes through the host's time zone:
    [LocalTime] takes a time value to its local time and [UTC] takes a
    local time back.  Where the zone sets its clocks forward some local
    times do not exist; [UTC] reads such a local time with the offset in
    force before the change, so that [LocalTime (UTC t)] is [t] moved
    past the gap.  In every zone a local time and its time value, read
    as a local time, are at most a day apart. *)

Definition msPerDay : Z := 86400000.

(** [MakeDate(day, time)]: the milliseconds of a local time. *)
Definition localMs (t : JsDate) : Z := localDay t * msPerDay + msInDay t.

Class Host := {
  timeValue : JsDate -> Z;
  localTime : Z -> JsDate;
  timeValue_near : forall t, Z.abs (timeValue t - localMs t) <= msPerDay
}.

(** The largest time value a [Date] holds, 100,000,000 days. *)
Definition maxTimeValue : Z := 8640000000000000.

(** [TimeClip(u)]: a time value out of the range makes the [Date] an
    Invalid Date, here [None]. *)
Definition TimeClip (u : Z) : option Z :=
  if Z.abs u <=? maxTimeValue then Some u else None.

(** [date.setDate(x)] on a valid date: the local time is taken to the
    day [x] of its month, where an [x] outside the month rolls over into
    the neighbouring months (the day number of the first of the month
    plus [x - 1]) and the time within the day is kept; the date then
    holds [TimeClip (UTC newDate)].  The result is the local view of the
    date afterwards, [None] for an Invalid Date. *)
Definition setDate `{Host} (d : JsDate) (x : Z) : option JsDate :=
  let newDate := mkDate (localDay d - getDate d + x) (msInDay d) in
  localTime <$> TimeClip (timeValue newDate).

(** The local time [i] calendar days before [d], at the time of day of
    [d]. *)
Definition daysBefore (d : JsDate) (i : Z) : JsDate :=
  mkDate (localDay d - i) (msInDay d).

Definition month_short (m : Z) : string :=
  nth (Z.to_nat (m - 1))
    ["Jan"; "Feb"; "Mar"; "Apr"; "May"; "Jun";
     "Jul"; "Aug"; "Sep"; "Oct"; "Nov"; "Dec"] "".

(** [date.toLocaleDateString("en-US", { month: "short", day: "numeric" })],
    for instance [Nov 2]. *)
Definition toLocaleDateString (d : JsDate) : string :=
  month_short (getMonth1 d) +:+ " " +:+ pretty (getDate d).

(** *** Truthiness

    [o[k] || dflt] on an object of strings: a missing key reads
    [undefined], and both [undefined] and the empty string are falsy. *)
Definition or_string (o : option string) (dflt : string) : string :=
  match o with
  | Some s => if String.eqb s "" then dflt else s
  | None => dflt
  end.

(** A missing key of an object of booleans reads [undefined], which is
    falsy: [!o[k]], [o[k] ?? false] and the test of [filter] all see it
    as [false]. *)
Definition truthy (o : option bool) : bool := default false o.

(** ** The data model *)

(** Modelled from the spec: the type [Habit] of [@/lib/types], which is
    [{id: string, name: string, emoji: string}]. *)
Module Habit.
Record t := mk { id : string; name : string; emoji : string }.
End Habit.

(** Modelled from the spec: the types [TodoStatus] and [TodoPriority] of
    [@/lib/types], the enumerations ["todo" | "doing" | "done"] and
    ["low" | "medium" | "high"]. *)
Module TodoStatus.
Inductive t := todo | doing | done.
End TodoStatus.

Module TodoPriority.
Inductive t := low | medium | high.
End TodoPriority.

#[global] Instance TodoStatus_eq_dec : EqDecision TodoStatus.t.
Proof. solve_decision. Defined.

(** Modelled from the spec: the type [TodoItem] of [@/lib/types], which is
    [{id, text, completed, status, priority, createdAt}]. *)
Module TodoItem.
Record t := mk {
  id : string;
  text : string;
  completed : bool;
  status : TodoStatus.t;
  priority : TodoPriority.t;
  createdAt : string
}.

(** [Partial<TodoItem>]: every field is optional. *)
Record partial := mkPartial {
  id' : option string;
  text' : option string;
  completed' : option bool;
  status' : option TodoStatus.t;
  priority' : option TodoPriority.t;
  createdAt' : option string
}.

Definition no_update : partial := mkPartial None None None None None None.

(** [{ ...todo, ...updates }]: a field of [updates] wins over the
    field of [todo]. *)
Definition merge (todo : t) (updates : partial) : t :=
  mk (default (id todo) (id' updates))
     (default (text todo) (text' updates))
     (default (completed todo) (completed' updates))
     (default (status todo) (status' updates))
     (default (priority todo) (priority' updates))
     (default (createdAt todo) (createdAt' updates)).
End TodoItem.

(** Modelled from the spec: the type [OrdiaaState] of [@/lib/types], the
    persisted document [{habits, completions, logs, todos}].  The three
    objects are finite maps on their string keys. *)
Record OrdiaaState := mkState {
  habits : list Habit.t;
  completions : gmap string bool;
  logs : gmap string string;
  todos : gmap string (list TodoItem.t)
}.

(** Modelled from the spec: the state [loadState] returns when the
    durable slot is absent or unreadable. *)
Definition defaultState : OrdiaaState := mkState [] ∅ ∅ ∅.

(** One point of the chart: [{ date: string; rate: number }]. *)
Module Point.
Record t := mk { date : string; rate : Z }.
End Point.

(** ** The storage module

    [formatDate] is imported from [@/lib/storage]; the store uses it as
    the key of every date-indexed object and nothing else of it. *)
Class Storage := { formatDate : JsDate -> string }.

Definition pad2 (n : Z) : string :=
  if n <? 10 then "0" +:+ pretty n else pretty n.

(** Modelled from the spec: [formatDate] of [@/lib/storage], the
    canonical date-only representation [YYYY-MM-DD] of the local
    calendar day. *)
Definition isoDate (d : JsDate) : string :=
  pretty (getFullYear d) +:+ "-" +:+ pad2 (getMonth1 d) +:+ "-" +:+ pad2 (getDate d).

Definition isoStorage : Storage := {| formatDate := isoDate |}.

(** ** The store: [useOrdiaaState] *)

Section Store.
Context `{Storage} `{Host}.

(** The key of a completion mark, the template string
    [`${habitId}-${dateStr}`]. *)
Definition completionKey (habitId dateStr : string) : string :=
  habitId +:+ "-" +:+ dateStr.

(** Toggle a habit's completion for a specific date. *)
Definition toggleHabit (habitId : string) (date : JsDate)
    (prev : OrdiaaState) : OrdiaaState :=
  let dateStr := formatDate date in
  let key := completionKey habitId dateStr in
  {| habits := habits prev;
     completions := <[key := negb (truthy (completions prev !! key))]> (completions prev);
     logs := logs prev;
     todos := todos prev |}.

Definition isHabitCompleted (state : OrdiaaState) (habitId : string)
    (date : JsDate) : bool :=
  let key := completionKey habitId (formatDate date) in
  truthy (completions state !! key).

(** Update daily log entry. *)
Definition updateLog (date : JsDate) (text : string)
    (prev : OrdiaaState) : OrdiaaState :=
  let dateStr := formatDate date in
  {| habits := habits prev;
     completions := completions prev;
     logs := <[dateStr := text]> (logs prev);
     todos := todos prev |}.

(** Get log entry for a specific date. *)
Definition getLog (state : OrdiaaState) (date : JsDate) : string :=
  or_string (logs state !! formatDate date) "".

(** Get todos for a specific date: [state.todos[key] || []], where an
    array, empty or not, is truthy. *)
Definition getTodos (state : OrdiaaState) (date : JsDate) : list TodoItem.t :=
  default [] (todos state !! formatDate date).

(** Add a new todo for a specific date.  [now] is the value of
    [Date.now()]; an argument left out takes its default, ["medium"]
    and ["todo"]. *)
Definition addTodo (now : Z) (date : JsDate) (text : string)
    (priority : option TodoPriority.t) (status : option TodoStatus.t)
    (prev : OrdiaaState) : OrdiaaState :=
  let priority := default TodoPriority.medium priority in
  let status := default TodoStatus.todo status in
  let dateStr := formatDate date in
  let newTodo :=
    {| TodoItem.id := pretty now;
       TodoItem.text := text;
       TodoItem.completed := bool_decide (status = TodoStatus.done);
       TodoItem.status := status;
       TodoItem.priority := priority;
       TodoItem.createdAt := dateStr |} in
  {| habits := habits prev;
     completions := completions prev;
     logs := logs prev;
     todos := <[dateStr := default [] (todos prev !! dateStr) ++ [newTodo]]> (todos prev) |}.

(** The callback of [toggleTodo]'s [map]. *)
Definition toggleItem (todoId : string) (todo : TodoItem.t) : TodoItem.t :=
  if String.eqb (TodoItem.id todo) todoId then
    let newCompleted := negb (TodoItem.completed todo) in
    {| TodoItem.id := TodoItem.id todo;
       TodoItem.text := TodoItem.text todo;
       TodoItem.completed := newCompleted;
       TodoItem.status := if newCompleted then TodoStatus.done else TodoStatus.todo;
       TodoItem.priority := TodoItem.priority todo;
       TodoItem.createdAt := TodoItem.createdAt todo |}
  else todo.

(** Toggle todo completion (simple view). *)
Definition toggleTodo (date : JsDate) (todoId : string)
    (prev : OrdiaaState) : OrdiaaState :=
  let dateStr := formatDate date in
  {| habits := habits prev;
     completions := completions prev;
     logs := logs prev;
     todos := <[dateStr := List.map (toggleItem todoId)
                             (default [] (todos prev !! dateStr))]> (todos prev) |}.

(** The callback of [updateTodo]'s [map]. *)
Definition updateItem (todoId : string) (updates : TodoItem.partial)
    (todo : TodoItem.t) : TodoItem.t :=
  if String.eqb (TodoItem.id todo) todoId then TodoItem.merge todo updates
  else todo.

(** Fully update a todo (for detailed view). *)
Definition updateTodo (date : JsDate) (todoId : string)
    (updates : TodoItem.partial) (prev : OrdiaaState) : OrdiaaState :=
  let dateStr := formatDate date in
  {| habits := habits prev;
     completions := completions prev;
     logs := logs prev;
     todos := <[dateStr := List.map (updateItem todoId updates)
                             (default [] (todos prev !! dateStr))]> (todos prev) |}.

(** Delete a todo. *)
Definition deleteTodo (date : JsDate) (todoId : string)
    (prev : OrdiaaState) : OrdiaaState :=
  let dateStr := formatDate date in
  {| habits := habits prev;
     completions := completions prev;
     logs := logs prev;
     todos := <[dateStr := List.filter
                             (fun todo => negb (String.eqb (TodoItem.id todo) todoId))
                             (default [] (todos prev !! dateStr))]> (todos prev) |}.

(** The habits the [filter] of [getCompletionRate] keeps for a date
    key. *)
Definition completedHabits (state : OrdiaaState) (dateStr : string) : list Habit.t :=
  List.filter
    (fun h => truthy (completions state !! completionKey (Habit.id h) dateStr))
    (habits state).

(** Calculate completion percentage for a specific date:
    [Math.round((completed / total) * 100)] on numbers. *)
Definition getCompletionRate (state : OrdiaaState) (date : JsDate) : Z :=
  let dateStr := formatDate date in
  let total := length (habits state) in
  if Nat.eqb total 0 then 0
  else
    let completed := length (completedHabits state dateStr) in
    Math_round (PrimFloat.mul
                  (PrimFloat.div (number_of_nat completed) (number_of_nat total))
                  (number_of_nat 100)).

(** The chart point of the day [i] days before [today]: a copy of
    [today] moved by [setDate(getDate() - i)].  When the copy becomes an
    Invalid Date the code passes it on to [formatDate], whose code is
    not in the repository's sources: the embedding stops there, with
    [None]. *)
Definition historyPoint (state : OrdiaaState) (today : JsDate) (i : Z)
    : option Point.t :=
  match setDate today (getDate today - i) with
  | Some date =>
      Some {| Point.date := toLocaleDateString date;
              Point.rate := getCompletionRate state date |}
  | None => None
  end.

(** The loop [for (let i = days - 1; i >= 0; i--)].  The counter is
    carried as [k = i + 1], so that the test [i >= 0] is the match on
    a successor and the recursion is structural. *)
Fixpoint historyLoop (state : OrdiaaState) (today : JsDate) (k : nat)
    (history : list Point.t) : option (list Point.t) :=
  match k with
  | O => Some history
  | S k' =>
      match historyPoint state today (Z.of_nat k') with
      | Some point => historyLoop state today k' (history ++ [point])
      | None => None
      end
  end.

(** Get completion rates for the last N days (for the chart).  [today]
    is the value of [new Date()], a valid date. *)
Definition getCompletionHistory (state : OrdiaaState) (today : JsDate)
    (days : Z) : option (list Point.t) :=
  historyLoop state today (Z.to_nat days) [].

(** Add a new habit.  [now] is the value of [Date.now()]. *)
Definition addHabit (now : Z) (name emoji : string)
    (prev : OrdiaaState) : OrdiaaState :=
  let newHabit := {| Habit.id := pretty now; Habit.name := name; Habit.emoji := emoji |} in
  {| habits := habits prev ++ [newHabit];
     completions := completions prev;
     logs := logs prev;
     todos := todos prev |}.

(** Delete a habit. *)
Definition deleteHabit (habitId : string) (prev : OrdiaaState) : OrdiaaState :=
  {| habits := List.filter (fun h => negb (String.eqb (Habit.id h) habitId)) (habits prev);
     completions := completions prev;
     logs := logs prev;
     todos := todos prev |}.

End Store.

(** ** Reference definitions and sample inputs *)

(** The rate in the specification's words: [100 * k / n] rounded to the
    nearest integer, a tie going up, and [0] when there is no habit. *)
Definition roundedPercent (k n : nat) : Z :=
  if Nat.eqb n 0 then 0
  else (200 * Z.of_nat k + Z.of_nat n) / (2 * Z.of_nat n).

(** The number of habits whose completion mark for a date key is true,
    in the specification's words. *)
Definition markedTrue (state : OrdiaaState) (dateStr : string) : nat :=
  length (filter
            (fun h => completions state !! completionKey (Habit.id h) dateStr = Some true)
            (habits state)).

(** What [Math.round((k / n) * 100)] gives on the counts [k] and [n]. *)
Definition roundedRatio (k n : nat) : Z :=
  Math_round (PrimFloat.mul (PrimFloat.div (number_of_nat k) (number_of_nat n))
                            (number_of_nat 100)).

(** [roundedRatio] agrees with [roundedPercent] for every [k <= n] with
    [0 < n <= bound]. *)
Definition agreeUpTo (bound : nat) : bool :=
  forallb
    (fun n => forallb
                (fun k => Z.eqb (roundedRatio k (S n)) (roundedPercent k (S n)))
                (seq 0 (S (S n))))
    (seq 0 bound).

(** 2 November 2026, a little after midnight. *)
Definition sampleDay : JsDate := mkDate 20759 1000.

(** The chart point of a date. *)
Definition chartPoint `{Storage} (state : OrdiaaState) (date : JsDate) : Point.t :=
  {| Point.date := toLocaleDateString date;
     Point.rate := getCompletionRate state date |}.

(** The local time of a number of milliseconds counted in local time. *)
Definition localOfMs (l : Z) : JsDate := mkDate (l / msPerDay) (l mod msPerDay).

(** A host on UTC: the local time is the time value. *)
Definition utcHost : Host.
Proof.
  refine {| timeValue := localMs; localTime := localOfMs |}.
  intros t. rewrite Z.sub_diag. unfold msPerDay. simpl. lia.
Defined.





(** The state after [n] calls of [addHabit], at the clock readings
    [1 .. n], from a given state. *)
Definition addHabits `{Storage} (n : nat) (state : OrdiaaState) : OrdiaaState :=
  foldl (fun s i => addHabit (Z.of_nat i) "habit" "*" s) state (seq 1 n).

(** The state after toggling the habits of ids [1 .. n] on a date. *)
Definition toggleHabits `{Storage} (n : nat) (date : JsDate)
    (state : OrdiaaState) : OrdiaaState :=
  foldl (fun s i => toggleHabit (pretty (Z.of_nat i)) date s) state (seq 1 n).

(** Only the [status] field is given. *)
Definition statusOnly (s : TodoStatus.t) : TodoItem.partial :=
  TodoItem.mkPartial None None None (Some s) None None.

(** [100 * k / n] lies exactly half way between two integers. *)
Definition isTie (k n : nat) : bool :=
  Z.eqb ((200 * Z.of_nat k) mod (2 * Z.of_nat n)) (Z.of_nat n).

(** Off the ties [roundedRatio] agrees with [roundedPercent], and on a
    tie it is [roundedPercent] or one less, for every [k <= n] with
    [0 < n <= bound]. *)
Definition agreeOffTiesUpTo (bound : nat) : bool :=
  forallb
    (fun n => forallb
                (fun k =>
                   let code := roundedRatio k (S n) in
                   let spec := roundedPercent k (S n) in
                   if isTie k (S n)
                   then Z.eqb code spec || Z.eqb code (spec - 1)
                   else Z.eqb code spec)
                (seq 0 (S (S n))))
    (seq 0 bound).

(** The state in which the sequence [getTodos] reads for a date is
    stored under the date's key. *)
Definition storeBack `{Storage} (date : JsDate) (state : OrdiaaState) : OrdiaaState :=
  {| habits := habits state;
     completions := completions state;
     logs := logs state;
     todos := <[formatDate date := getTodos state date]> (todos state) |}.

(** Forty habits, of which the first twenty-three are marked for
    [sampleDay], reached from the empty state through the store's own
    mutations, with [isoDate] for [formatDate]. *)
Definition busyState : OrdiaaState :=
  @toggleHabits isoStorage 23 sampleDay (@addHabits isoStorage 40 defaultState).

(** The empty state after [addTodo(sampleDay, "Buy milk", "high", "todo")]
    at the clock reading [5]. *)
Definition milkState : OrdiaaState :=
  @addTodo isoStorage 5 sampleDay "Buy milk"
    (Some TodoPriority.high) (Some TodoStatus.todo) defaultState.

(** ** Invariants and further sample inputs *)

(** No character of the string is a dash. *)
Fixpoint noDash (s : string) : bool :=
  match s with
  | EmptyString => true
  | String c s' => negb (Ascii.eqb c "-"%char) && noDash s'
  end.

(** The ids of the habits, in the order of the habit sequence. *)
Definition habitIds (state : OrdiaaState) : list string :=
  Habit.id <$> habits state.

(** The [completed] flag of an item says whether its status is
    ["done"]. *)
Definition inSync (item : TodoItem.t) : Prop :=
  TodoItem.completed item = bool_decide (TodoItem.status item = TodoStatus.done).

(** Every stored item is in sync. *)
Definition allInSync (state : OrdiaaState) : Prop :=
  forall key l, todos state !! key = Some l -> Forall inSync l.

(** Every stored item was created at the key it is stored under. *)
Definition filedByDate (state : OrdiaaState) : Prop :=
  forall key l, todos state !! key = Some l ->
    Forall (fun item => TodoItem.createdAt item = key) l.

(** The update gives neither [completed] nor [status]. *)
Definition keepsProgress (updates : TodoItem.partial) : Prop :=
  TodoItem.completed' updates = None /\ TodoItem.status' updates = None.

(** The status of the item is the one [toggleTodo] writes: ["done"] for
    a completed item and ["todo"] for the others. *)
Definition plainStatus (item : TodoItem.t) : Prop :=
  TodoItem.status item
  = if TodoItem.completed item then TodoStatus.done else TodoStatus.todo.

(** The four mutations of the to-do items of a date, with any
    arguments. *)
Inductive TodoMutation `{Storage} (d : JsDate) : (OrdiaaState -> OrdiaaState) -> Prop :=
  | mutation_add (now : Z) (text : string) (priority : option TodoPriority.t)
      (status : option TodoStatus.t) :
      TodoMutation d (addTodo now d text priority status)
  | mutation_toggle (todoId : string) : TodoMutation d (toggleTodo d todoId)
  | mutation_update (todoId : string) (updates : TodoItem.partial) :
      TodoMutation d (updateTodo d todoId updates)
  | mutation_delete (todoId : string) : TodoMutation d (deleteTodo d todoId).

(** The state in which the date's sequence, as [getTodos] reads it, is
    replaced by its image under [f]: the shape of the four mutations. *)
Definition rewriteDay `{Storage} (d : JsDate)
    (f : list TodoItem.t -> list TodoItem.t) (state : OrdiaaState) : OrdiaaState :=
  {| habits := habits state;
     completions := completions state;
     logs := logs state;
     todos := <[formatDate d := f (getTodos state d)]> (todos state) |}.

(** Two habits, of ids ["1"] and ["2"], none completed. *)
Definition pairState : OrdiaaState := @addHabits isoStorage 2 defaultState.

(** The empty state after [addTodo(sampleDay, "Write", undefined, "doing")]
    at the clock reading [5]. *)
Definition doingState : OrdiaaState :=
  @addTodo isoStorage 5 sampleDay "Write" None (Some TodoStatus.doing) defaultState.

(** 1 November 2026. *)
Definition dayBefore : JsDate := mkDate 20758 1000.

(** * Properties *)

(** ** Lemmas on the host model *)

Lemma or_string_some (text : string) : or_string (Some text) "" = text.
Proof.
  unfold or_string. destruct (String.eqb_spec text ""); congruence.
Qed.

Lemma setDate_daysBefore `{Host} (d : JsDate) (i : Z) :
  setDate d (getDate d - i) = localTime <$> TimeClip (timeValue (daysBefore d i)).
Proof.
  unfold setDate, daysBefore.
  by replace (localDay d - getDate d + (getDate d - i)) with (localDay d - i) by lia.
Qed.

Lemma setDate_in_range `{Host} (d : JsDate) (i : Z) :
  Z.abs (timeValue (daysBefore d i)) <= maxTimeValue ->
  setDate d (getDate d - i) = Some (localTime (timeValue (daysBefore d i))).
Proof.
  intros Hrange. rewrite setDate_daysBefore. unfold TimeClip.
  by rewrite (proj2 (Z.leb_le _ _) Hrange).
Qed.

Lemma setDate_out_of_range `{Host} (d : JsDate) (i : Z) :
  maxTimeValue < Z.abs (timeValue (daysBefore d i)) ->
  setDate d (getDate d - i) = None.
Proof.
  intros Hrange. rewrite setDate_daysBefore. unfold TimeClip.
  by rewrite (proj2 (Z.leb_gt _ _) Hrange).
Qed.


Lemma filter_length_le {A} (f : A -> bool) (l : list A) :
  (length (List.filter f l) <= length l)%nat.
Proof. induction l as [|a l IH]; simpl; [lia|]. destruct (f a); simpl; lia. Qed.

Lemma filter_all {A} (f : A -> bool) (l : list A) :
  (forall a, a ∈ l -> f a = true) -> List.filter f l = l.
Proof.
  induction l as [|a l IH]; intros Hall; simpl; [done|].
  rewrite (Hall a) by apply list_elem_of_here.
  f_equal. apply IH. intros b Hb. apply Hall. by apply list_elem_of_further.
Qed.

Lemma map_unchanged {A} (f : A -> A) (l : list A) :
  (forall a, a ∈ l -> f a = a) -> List.map f l = l.
Proof.
  induction l as [|a l IH]; intros Hall; simpl; [done|].
  rewrite (Hall a) by apply list_elem_of_here.
  f_equal. apply IH. intros b Hb. apply Hall. by apply list_elem_of_further.
Qed.

Lemma filter_sublist {A} (f : A -> bool) (l : list A) :
  sublist (List.filter f l) l.
Proof.
  induction l as [|a l IH]; simpl; [constructor|].
  destruct (f a); by constructor.
Qed.

Lemma forallb_seq_lookup (f : nat -> bool) (n i : nat) :
  forallb f (seq 0 n) = true -> (i < n)%nat -> f i = true.
Proof.
  intros Hall Hi. rewrite forallb_forall in Hall.
  apply Hall. apply in_seq. lia.
Qed.

Lemma agreeUpTo_lookup (bound k n : nat) :
  agreeUpTo bound = true -> (0 < n <= bound)%nat -> (k <= n)%nat ->
  roundedRatio k n = roundedPercent k n.
Proof.
  unfold agreeUpTo. intros Hagree Hn Hk. destruct n as [|n']; [lia|].
  pose proof (forallb_seq_lookup _ _ n' Hagree ltac:(lia)) as Hrow.
  pose proof (forallb_seq_lookup _ _ k Hrow ltac:(lia)) as Hcell.
  apply Z.eqb_eq in Hcell. exact Hcell.
Qed.

Lemma agreeOffTiesUpTo_lookup (bound k n : nat) :
  agreeOffTiesUpTo bound = true -> (0 < n <= bound)%nat -> (k <= n)%nat ->
  (isTie k n = false -> roundedRatio k n = roundedPercent k n)
  /\ roundedPercent k n - 1 <= roundedRatio k n <= roundedPercent k n.
Proof.
  unfold agreeOffTiesUpTo. intros Hagree Hn Hk. destruct n as [|n']; [lia|].
  pose proof (forallb_seq_lookup _ _ n' Hagree ltac:(lia)) as Hrow.
  pose proof (forallb_seq_lookup _ _ k Hrow ltac:(lia)) as Hcell.
  cbv beta zeta in Hcell.
  generalize dependent (roundedRatio k (S n')).
  generalize dependent (roundedPercent k (S n')).
  intros spec code. destruct (isTie k (S n')); intros Hcell.
  - split; [intros Hno; discriminate Hno|].
    apply orb_true_iff in Hcell as [Heq|Heq]; apply Z.eqb_eq in Heq; lia.
  - apply Z.eqb_eq in Hcell. split; [intros _; exact Hcell|lia].
Qed.

Lemma roundedRatio_below_40 (k n : nat) :
  (0 < n < 40)%nat -> (k <= n)%nat -> roundedRatio k n = roundedPercent k n.
Proof.
  intros Hn Hk. apply (agreeUpTo_lookup 39); [|lia|exact Hk].
  vm_compute. reflexivity.
Qed.

Lemma roundedRatio_up_to_200 (k n : nat) :
  (0 < n <= 200)%nat -> (k <= n)%nat ->
  (isTie k n = false -> roundedRatio k n = roundedPercent k n)
  /\ roundedPercent k n - 1 <= roundedRatio k n <= roundedPercent k n.
Proof.
  intros Hn Hk. apply (agreeOffTiesUpTo_lookup 200); [|exact Hn|exact Hk].
  vm_compute. reflexivity.
Qed.

Section Properties.
Context `{Storage} `{Host}.

(** ** Reading a date's sequence after a write to the [todos] object *)

Lemma getTodos_written (state : OrdiaaState) (date : JsDate)
    (l : list TodoItem.t) (hs : list Habit.t) (cs : gmap string bool)
    (ls : gmap string string) :
  getTodos (mkState hs cs ls (<[formatDate date := l]> (todos state))) date = l.
Proof. unfold getTodos. simpl. by rewrite lookup_insert_eq. Qed.

Lemma getTodos_other (state : OrdiaaState) (date date' : JsDate)
    (l : list TodoItem.t) (hs : list Habit.t) (cs : gmap string bool)
    (ls : gmap string string) :
  formatDate date' ≠ formatDate date ->
  getTodos (mkState hs cs ls (<[formatDate date := l]> (todos state))) date'
  = getTodos state date'.
Proof. intros Hne. unfold getTodos. simpl. by rewrite lookup_insert_ne. Qed.

(** ** Habits *)

(** C2: toggling a habit twice for the same date leaves
    [isHabitCompleted] for that habit and date as it was before the
    two calls, a key absent before counting as false; the answer for
    every other habit and date is unchanged as well. *)
Theorem toggleHabit_twice (habitId : string) (date : JsDate) (state : OrdiaaState) :
  isHabitCompleted (toggleHabit habitId date (toggleHabit habitId date state))
    habitId date
  = isHabitCompleted state habitId date
  /\ (completions state !! completionKey habitId (formatDate date) = None ->
      isHabitCompleted state habitId date = false)
  /\ forall habitId' date',
      isHabitCompleted (toggleHabit habitId date (toggleHabit habitId date state))
        habitId' date'
      = isHabitCompleted state habitId' date'.
Proof.
  assert (Hall : forall habitId' date',
      isHabitCompleted (toggleHabit habitId date (toggleHabit habitId date state))
        habitId' date'
      = isHabitCompleted state habitId' date').
  { intros habitId' date'. unfold isHabitCompleted, toggleHabit. simpl.
    set (key := completionKey habitId (formatDate date)).
    set (key' := completionKey habitId' (formatDate date')).
    destruct (decide (key = key')) as [<-|Hne].
    - rewrite !lookup_insert_eq. simpl. apply negb_involutive.
    - by rewrite !lookup_insert_ne. }
  split; [apply Hall|]. split; [|apply Hall].
  intros Hnone. unfold isHabitCompleted. by rewrite Hnone.
Qed.

(** C7: [deleteHabit] removes the habits of the given id from the
    habit sequence, keeps the others in their order, and leaves the
    completions object as it is, so that [isHabitCompleted] answers
    after the deletion as before, for the deleted id too. *)
Theorem deleteHabit_keeps_marks (habitId : string) (state : OrdiaaState) :
  completions (deleteHabit habitId state) = completions state
  /\ (forall h date,
        isHabitCompleted (deleteHabit habitId state) h date
        = isHabitCompleted state h date)
  /\ (forall h, h ∈ habits (deleteHabit habitId state)
                <-> h ∈ habits state /\ Habit.id h ≠ habitId)
  /\ sublist (habits (deleteHabit habitId state)) (habits state).
Proof.
  split; [done|]. split; [done|]. split.
  - intros h. unfold deleteHabit. simpl.
    rewrite !list_elem_of_In, filter_In, negb_true_iff.
    destruct (String.eqb_spec (Habit.id h) habitId); intuition congruence.
  - apply filter_sublist.
Qed.

(** ** Logs *)

(** C8: [getLog] right after [updateLog] for the same date returns the
    text written, the empty string included; and [getLog] of a date
    with no stored entry returns the empty string. *)
Theorem getLog_updateLog (date : JsDate) (state : OrdiaaState) :
  (forall text, getLog (updateLog date text state) date = text)
  /\ (logs state !! formatDate date = None -> getLog state date = "").
Proof.
  split.
  - intros text. unfold getLog, updateLog. simpl.
    rewrite lookup_insert_eq. apply or_string_some.
  - intros Hnone. unfold getLog. by rewrite Hnone.
Qed.

(** ** Frame *)

(** C10: every mutation rewrites one field of the state and copies the
    other three: [toggleHabit] leaves habits, logs and todos;
    [updateLog] leaves habits, completions and todos; the four todo
    mutations leave habits, completions and logs; [addHabit] and
    [deleteHabit] leave completions, logs and todos. *)
Theorem mutations_frame (state : OrdiaaState) :
  (forall h d, let s := toggleHabit h d state in
     habits s = habits state /\ logs s = logs state /\ todos s = todos state)
  /\ (forall d text, let s := updateLog d text state in
     habits s = habits state /\ completions s = completions state
     /\ todos s = todos state)
  /\ (forall now d text p st, let s := addTodo now d text p st state in
     habits s = habits state /\ completions s = completions state
     /\ logs s = logs state)
  /\ (forall d i, let s := toggleTodo d i state in
     habits s = habits state /\ completions s = completions state
     /\ logs s = logs state)
  /\ (forall d i u, let s := updateTodo d i u state in
     habits s = habits state /\ completions s = completions state
     /\ logs s = logs state)
  /\ (forall d i, let s := deleteTodo d i state in
     habits s = habits state /\ completions s = completions state
     /\ logs s = logs state)
  /\ (forall now name emoji, let s := addHabit now name emoji state in
     completions s = completions state /\ logs s = logs state
     /\ todos s = todos state)
  /\ (forall h, let s := deleteHabit h state in
     completions s = completions state /\ logs s = logs state
     /\ todos s = todos state).
Proof. repeat split. Qed.

(** ** To-do items *)

Lemma getTodos_addTodo (now : Z) (date : JsDate) (text : string)
    (priority : option TodoPriority.t) (status : option TodoStatus.t)
    (state : OrdiaaState) :
  getTodos (addTodo now date text priority status state) date
  = getTodos state date
    ++ [ {| TodoItem.id := pretty now;
            TodoItem.text := text;
            TodoItem.completed :=
              bool_decide (default TodoStatus.todo status = TodoStatus.done);
            TodoItem.status := default TodoStatus.todo status;
            TodoItem.priority := default TodoPriority.medium priority;
            TodoItem.createdAt := formatDate date |} ].
Proof. unfold addTodo. simpl. by rewrite getTodos_written. Qed.

(** With priority and status left out the new item is a ["medium"],
    ["todo"] item that is not completed. *)
Lemma addTodo_defaults (now : Z) (date : JsDate) (text : string)
    (state : OrdiaaState) :
  getTodos (addTodo now date text None None state) date
  = getTodos state date
    ++ [ {| TodoItem.id := pretty now;
            TodoItem.text := text;
            TodoItem.completed := false;
            TodoItem.status := TodoStatus.todo;
            TodoItem.priority := TodoPriority.medium;
            TodoItem.createdAt := formatDate date |} ].
Proof. by rewrite getTodos_addTodo. Qed.

(** C5: [addTodo] with the four arguments given puts one new item at
    the end of the date's sequence, after the items that were there;
    the item has the given text, priority and status, is completed
    exactly when the status is ["done"], and was created at the date's
    key.  The sequences of the other keys are not touched. *)
Theorem addTodo_appends (now : Z) (date : JsDate) (text : string)
    (priority : TodoPriority.t) (status : TodoStatus.t) (state : OrdiaaState) :
  getTodos (addTodo now date text (Some priority) (Some status) state) date
  = getTodos state date
    ++ [ {| TodoItem.id := pretty now;
            TodoItem.text := text;
            TodoItem.completed := bool_decide (status = TodoStatus.done);
            TodoItem.status := status;
            TodoItem.priority := priority;
            TodoItem.createdAt := formatDate date |} ]
  /\ forall key, key ≠ formatDate date ->
       todos (addTodo now date text (Some priority) (Some status) state) !! key
       = todos state !! key.
Proof.
  split.
  - apply getTodos_addTodo.
  - intros key Hne. unfold addTodo. simpl. by rewrite lookup_insert_ne.
Qed.

Lemma toggleItem_other (todoId : string) (item : TodoItem.t) :
  TodoItem.id item ≠ todoId -> toggleItem todoId item = item.
Proof.
  intros Hne. unfold toggleItem.
  by destruct (String.eqb_spec (TodoItem.id item) todoId).
Qed.

Lemma updateItem_other (todoId : string) (updates : TodoItem.partial)
    (item : TodoItem.t) :
  TodoItem.id item ≠ todoId -> updateItem todoId updates item = item.
Proof.
  intros Hne. unfold updateItem.
  by destruct (String.eqb_spec (TodoItem.id item) todoId).
Qed.

Lemma getTodos_toggleTodo (date : JsDate) (todoId : string) (state : OrdiaaState) :
  getTodos (toggleTodo date todoId state) date
  = List.map (toggleItem todoId) (getTodos state date).
Proof. unfold toggleTodo. simpl. by rewrite getTodos_written. Qed.

Lemma getTodos_updateTodo (date : JsDate) (todoId : string)
    (updates : TodoItem.partial) (state : OrdiaaState) :
  getTodos (updateTodo date todoId updates state) date
  = List.map (updateItem todoId updates) (getTodos state date).
Proof. unfold updateTodo. simpl. by rewrite getTodos_written. Qed.

Lemma getTodos_deleteTodo (date : JsDate) (todoId : string) (state : OrdiaaState) :
  getTodos (deleteTodo date todoId state) date
  = List.filter (fun item => negb (String.eqb (TodoItem.id item) todoId))
      (getTodos state date).
Proof. unfold deleteTodo. simpl. by rewrite getTodos_written. Qed.

(** C6: for an id present in the date's sequence, [toggleTodo] keeps
    the length and the order of the sequence; an item of that id gets
    its [completed] flag negated and its status set to ["done"] when
    the new flag is true and to ["todo"] when it is false, its other
    fields being kept; an item of another id is kept as it is; the
    sequences of the other keys are not touched. *)
Theorem toggleTodo_flips (date : JsDate) (todoId : string) (state : OrdiaaState)
    (Hpresent : todoId ∈ List.map TodoItem.id (getTodos state date)) :
  length (getTodos (toggleTodo date todoId state) date)
  = length (getTodos state date)
  /\ (exists i item, getTodos state date !! i = Some item
                     /\ TodoItem.id item = todoId)
  /\ (forall i item,
        getTodos state date !! i = Some item -> TodoItem.id item = todoId ->
        getTodos (toggleTodo date todoId state) date !! i
        = Some {| TodoItem.id := TodoItem.id item;
                  TodoItem.text := TodoItem.text item;
                  TodoItem.completed := negb (TodoItem.completed item);
                  TodoItem.status :=
                    if negb (TodoItem.completed item)
                    then TodoStatus.done else TodoStatus.todo;
                  TodoItem.priority := TodoItem.priority item;
                  TodoItem.createdAt := TodoItem.createdAt item |})
  /\ (forall i item,
        getTodos state date !! i = Some item -> TodoItem.id item ≠ todoId ->
        getTodos (toggleTodo date todoId state) date !! i = Some item)
  /\ (forall key, key ≠ formatDate date ->
        todos (toggleTodo date todoId state) !! key = todos state !! key).
Proof.
  rewrite getTodos_toggleTodo. split; [apply length_map|]. split.
  { apply list_elem_of_fmap in Hpresent as (item & -> & Hin).
    apply list_elem_of_lookup in Hin as [i Hi]. by exists i, item. }
  split; [|split].
  - intros i item Hi Hid.
    change (List.map (toggleItem todoId) (getTodos state date))
      with (toggleItem todoId <$> getTodos state date).
    rewrite list_lookup_fmap, Hi. simpl. f_equal.
    unfold toggleItem. by destruct (String.eqb_spec (TodoItem.id item) todoId).
  - intros i item Hi Hid.
    change (List.map (toggleItem todoId) (getTodos state date))
      with (toggleItem todoId <$> getTodos state date).
    rewrite list_lookup_fmap, Hi. simpl. f_equal. by apply toggleItem_other.
  - intros key Hne. unfold toggleTodo. simpl. by rewrite lookup_insert_ne.
Qed.

(** C9: after [addTodo] with status ["done"] and then [updateTodo] of
    the item just added with only [status: "doing"], the date's
    sequence holds an item that is completed and whose status is
    ["doing"]: [updateTodo] writes the fields it is given and leaves
    [completed] as it was. *)
Theorem updateTodo_leaves_completed (now : Z) (date : JsDate) (text : string)
    (priority : TodoPriority.t) (state : OrdiaaState) :
  {| TodoItem.id := pretty now;
     TodoItem.text := text;
     TodoItem.completed := true;
     TodoItem.status := TodoStatus.doing;
     TodoItem.priority := priority;
     TodoItem.createdAt := formatDate date |}
  ∈ getTodos
      (updateTodo date (pretty now) (statusOnly TodoStatus.doing)
         (addTodo now date text (Some priority) (Some TodoStatus.done) state))
      date.
Proof.
  rewrite getTodos_updateTodo.
  rewrite getTodos_addTodo.
  rewrite map_app. apply elem_of_app. right. simpl.
  unfold updateItem. simpl. rewrite String.eqb_refl.
  apply list_elem_of_here.
Qed.

(** [updateTodo] writes the given fields only: a field left out of the
    update keeps its value. *)
Lemma merge_fields (item : TodoItem.t) (updates : TodoItem.partial) :
  (TodoItem.id' updates = None ->
     TodoItem.id (TodoItem.merge item updates) = TodoItem.id item)
  /\ (TodoItem.text' updates = None ->
     TodoItem.text (TodoItem.merge item updates) = TodoItem.text item)
  /\ (TodoItem.completed' updates = None ->
     TodoItem.completed (TodoItem.merge item updates) = TodoItem.completed item)
  /\ (TodoItem.status' updates = None ->
     TodoItem.status (TodoItem.merge item updates) = TodoItem.status item)
  /\ (TodoItem.priority' updates = None ->
     TodoItem.priority (TodoItem.merge item updates) = TodoItem.priority item)
  /\ (TodoItem.createdAt' updates = None ->
     TodoItem.createdAt (TodoItem.merge item updates) = TodoItem.createdAt item).
Proof. repeat split; intros Hnone; simpl; by rewrite Hnone. Qed.

(** ** Mutations by an id that is not there *)

Lemma storeBack_stored (date : JsDate) (state : OrdiaaState) :
  is_Some (todos state !! formatDate date) -> storeBack date state = state.
Proof.
  intros [l Hl]. unfold storeBack, getTodos. rewrite Hl. simpl.
  rewrite insert_id by done. by destruct state.
Qed.

Lemma storeBack_fresh (date : JsDate) (state : OrdiaaState) :
  todos state !! formatDate date = None ->
  todos (storeBack date state) = <[formatDate date := []]> (todos state)
  /\ storeBack date state ≠ state.
Proof.
  intros Hnone. unfold storeBack, getTodos. rewrite Hnone. simpl.
  split; [done|]. intros Heq.
  apply (f_equal (fun s => todos s !! formatDate date)) in Heq.
  simpl in Heq. rewrite lookup_insert_eq, Hnone in Heq. discriminate.
Qed.

Lemma getTodos_storeBack (date date' : JsDate) (state : OrdiaaState) :
  getTodos (storeBack date state) date' = getTodos state date'.
Proof.
  unfold storeBack.
  destruct (decide (formatDate date' = formatDate date)) as [Heq|Hne].
  - unfold getTodos at 1. simpl. rewrite Heq, lookup_insert_eq. simpl.
    unfold getTodos. by rewrite Heq.
  - by apply getTodos_other.
Qed.

Lemma absent_id (todoId : string) (l : list TodoItem.t) :
  todoId ∉ List.map TodoItem.id l ->
  forall item, item ∈ l -> TodoItem.id item ≠ todoId.
Proof.
  intros Habsent item Hin Heq. apply Habsent.
  apply list_elem_of_fmap. exists item. by split.
Qed.

Lemma toggleTodo_absent (date : JsDate) (todoId : string) (state : OrdiaaState) :
  todoId ∉ List.map TodoItem.id (getTodos state date) ->
  toggleTodo date todoId state = storeBack date state.
Proof.
  intros Habsent. unfold toggleTodo, storeBack. f_equal. f_equal.
  apply map_unchanged. intros item Hin.
  apply toggleItem_other. by eapply absent_id.
Qed.

Lemma updateTodo_absent (date : JsDate) (todoId : string)
    (updates : TodoItem.partial) (state : OrdiaaState) :
  todoId ∉ List.map TodoItem.id (getTodos state date) ->
  updateTodo date todoId updates state = storeBack date state.
Proof.
  intros Habsent. unfold updateTodo, storeBack. f_equal. f_equal.
  apply map_unchanged. intros item Hin.
  apply updateItem_other. by eapply absent_id.
Qed.

Lemma deleteTodo_absent (date : JsDate) (todoId : string) (state : OrdiaaState) :
  todoId ∉ List.map TodoItem.id (getTodos state date) ->
  deleteTodo date todoId state = storeBack date state.
Proof.
  intros Habsent. unfold deleteTodo, storeBack. f_equal. f_equal.
  apply filter_all. intros item Hin. apply negb_true_iff.
  destruct (String.eqb_spec (TodoItem.id item) todoId) as [Heq|]; [|done].
  by destruct (absent_id todoId _ Habsent item Hin).
Qed.

(** C4, as amended: for an id that is not the id of any item of the
    date's sequence, [toggleTodo], [updateTodo] and [deleteTodo] leave
    habits, completions, logs and what [getTodos] returns for every
    date as they were; when the date has a stored sequence the state
    is unchanged, and when it has none the [todos] object gains the
    date's key, holding the empty sequence. *)
Theorem missing_todo_noop (date : JsDate) (todoId : string)
    (updates : TodoItem.partial) (state : OrdiaaState)
    (Habsent : todoId ∉ List.map TodoItem.id (getTodos state date)) :
  forall s,
    s ∈ [toggleTodo date todoId state;
         updateTodo date todoId updates state;
         deleteTodo date todoId state] ->
    habits s = habits state
    /\ completions s = completions state
    /\ logs s = logs state
    /\ (forall date', getTodos s date' = getTodos state date')
    /\ (is_Some (todos state !! formatDate date) -> s = state)
    /\ (todos state !! formatDate date = None ->
        todos s = <[formatDate date := []]> (todos state)).
Proof.
  intros s Hs.
  assert (s = storeBack date state) as ->.
  { rewrite !elem_of_cons in Hs. destruct Hs as [->|[->|[->|Hs]]].
    - by apply toggleTodo_absent.
    - by apply updateTodo_absent.
    - by apply deleteTodo_absent.
    - by apply elem_of_nil in Hs. }
  do 3 (split; [done|]). split; [|split].
  - intros date'. apply getTodos_storeBack.
  - apply storeBack_stored.
  - intros Hnone. by apply storeBack_fresh.
Qed.

(** ** The completion rate *)

Lemma completedHabits_length (state : OrdiaaState) (dateStr : string) :
  length (completedHabits state dateStr) = markedTrue state dateStr.
Proof.
  unfold completedHabits, markedTrue.
  induction (habits state) as [|h l IH]; [done|].
  rewrite filter_cons. simpl. case_decide as Hmark.
  - rewrite Hmark. simpl. by rewrite IH.
  - destruct (completions state !! completionKey (Habit.id h) dateStr)
      as [[]|]; done.
Qed.

Lemma markedTrue_le (state : OrdiaaState) (dateStr : string) :
  (markedTrue state dateStr <= length (habits state))%nat.
Proof. rewrite <- completedHabits_length. apply filter_length_le. Qed.

(** With no habit the rate is [0]. *)
Lemma getCompletionRate_no_habits (state : OrdiaaState) (date : JsDate) :
  habits state = [] -> getCompletionRate state date = 0.
Proof. intros Hnil. unfold getCompletionRate. by rewrite Hnil. Qed.

(** With [n > 0] habits of which [k] are marked true for the date, the
    rate is [Math.round] of the binary64 product of the binary64
    quotient [k / n] and [100]. *)
Lemma getCompletionRate_ratio (state : OrdiaaState) (date : JsDate) :
  habits state ≠ [] ->
  getCompletionRate state date
  = roundedRatio (markedTrue state (formatDate date)) (length (habits state)).
Proof.
  intros Hne. unfold getCompletionRate, roundedRatio.
  rewrite completedHabits_length.
  destruct (habits state); [done|]. done.
Qed.

(** Below 40 habits the rate is the rounded percentage. *)
Lemma getCompletionRate_below_40 (state : OrdiaaState) (date : JsDate) :
  (length (habits state) < 40)%nat ->
  getCompletionRate state date
  = roundedPercent (markedTrue state (formatDate date)) (length (habits state)).
Proof.
  intros Hlt. pose proof (markedTrue_le state (formatDate date)) as Hle.
  destruct (habits state) as [|h l] eqn:Hhabits.
  { by rewrite getCompletionRate_no_habits. }
  rewrite getCompletionRate_ratio by (by rewrite Hhabits).
  rewrite Hhabits in *. apply roundedRatio_below_40; simpl in *; lia.
Qed.

(** Up to 200 habits the rate is the rounded percentage whenever the
    percentage is not exactly half way between two integers, and at
    most one below it otherwise. *)
Lemma getCompletionRate_up_to_200 (state : OrdiaaState) (date : JsDate) :
  habits state ≠ [] -> (length (habits state) <= 200)%nat ->
  (isTie (markedTrue state (formatDate date)) (length (habits state)) = false ->
   getCompletionRate state date
   = roundedPercent (markedTrue state (formatDate date)) (length (habits state)))
  /\ roundedPercent (markedTrue state (formatDate date)) (length (habits state)) - 1
     <= getCompletionRate state date
     <= roundedPercent (markedTrue state (formatDate date)) (length (habits state)).
Proof.
  intros Hne Hlt. pose proof (markedTrue_le state (formatDate date)) as Hle.
  rewrite getCompletionRate_ratio by done.
  apply roundedRatio_up_to_200; [|done].
  revert Hlt. destruct (habits state); [done|simpl; lia].
Qed.

(** With 40 habits of which 23 are marked true the rate is 57, while
    the percentage is 57.5. *)
Lemma getCompletionRate_23_of_40 (state : OrdiaaState) (date : JsDate) :
  length (habits state) = 40%nat ->
  markedTrue state (formatDate date) = 23%nat ->
  getCompletionRate state date = 57 /\ roundedPercent 23 40 = 58.
Proof.
  intros Hn Hk. rewrite getCompletionRate_ratio by (by destruct (habits state)).
  rewrite Hn, Hk. split; vm_compute; reflexivity.
Qed.

(** ** The history of the chart *)

Lemma historyPoint_in_range (state : OrdiaaState) (today : JsDate) (i : Z) :
  Z.abs (timeValue (daysBefore today i)) <= maxTimeValue ->
  historyPoint state today i
  = Some (chartPoint state (localTime (timeValue (daysBefore today i)))).
Proof. intros Hrange. unfold historyPoint. by rewrite setDate_in_range. Qed.

Lemma historyLoop_prefix (state : OrdiaaState) (today : JsDate) (k : nat)
    (before history : list Point.t) :
  historyLoop state today k (before ++ history)
  = (fun l => before ++ l) <$> historyLoop state today k history.
Proof.
  revert history. induction k as [|k IH]; intros history; [done|].
  cbn [historyLoop]. destruct (historyPoint state today (Z.of_nat k)); [|done].
  by rewrite <- app_assoc, IH.
Qed.


(** A window within the range of [Date] has less than [2^53] days: the
    integers [days] and [i] of the embedding are the numbers of the
    code. *)
Lemma window_days_bound (today : JsDate) (days : Z) :
  (forall i, 0 <= i < days ->
     Z.abs (timeValue (daysBefore today i)) <= maxTimeValue) ->
  days <= 200000003.
Proof.
  intros Hrange. destruct (Z.le_gt_cases days 0) as [|Hpos]; [lia|].
  pose proof (Hrange 0 ltac:(lia)) as Hfirst.
  pose proof (Hrange (days - 1) ltac:(lia)) as Hlast.
  pose proof (timeValue_near (daysBefore today 0)) as Hnear0.
  pose proof (timeValue_near (daysBefore today (days - 1))) as Hnear1.
  unfold localMs, daysBefore, maxTimeValue, msPerDay in *. simpl in *. lia.
Qed.


End Properties.

(** * Further properties of the store *)

(** ** Strings and keys *)

Lemma string_app_cons (c : ascii) (a b : string) :
  String c a +:+ b = String c (a +:+ b).
Proof. reflexivity. Qed.

Lemma string_length_app (a b : string) :
  String.length (a +:+ b) = (String.length a + String.length b)%nat.
Proof.
  induction a as [|c a IH]; [done|].
  rewrite string_app_cons. simpl. by rewrite IH.
Qed.

Lemma string_app_inv_tail (a b t : string) : a +:+ t = b +:+ t -> a = b.
Proof.
  revert b. induction a as [|c a IH]; intros [|c' b] Heq.
  - done.
  - apply (f_equal String.length) in Heq.
    rewrite (string_length_app (String c' b) t) in Heq.
    change ("" +:+ t) with t in Heq. simpl in Heq. lia.
  - apply (f_equal String.length) in Heq.
    rewrite (string_length_app (String c a) t) in Heq.
    change ("" +:+ t) with t in Heq. simpl in Heq. lia.
  - rewrite !string_app_cons in Heq. injection Heq as -> Heq.
    f_equal. by apply IH.
Qed.

Lemma completionKey_same_date (h h' dateStr : string) :
  completionKey h dateStr = completionKey h' dateStr -> h = h'.
Proof. unfold completionKey. apply string_app_inv_tail. Qed.

Lemma completionKey_same_habit (h s s' : string) :
  completionKey h s = completionKey h s' -> s = s'.
Proof.
  unfold completionKey. intros Heq.
  apply (inj (String.app h)) in Heq. by apply (inj (String.app "-")) in Heq.
Qed.

(** Between ids without a dash the key tells the habit and the date. *)
Lemma completionKey_inj (h h' s s' : string) :
  noDash h = true -> noDash h' = true ->
  completionKey h s = completionKey h' s' -> h = h' /\ s = s'.
Proof.
  unfold completionKey. revert h'.
  induction h as [|c h IH]; intros [|c' h'] Hh Hh' Heq;
    rewrite ?string_app_cons in Heq.
  - split; [done|]. by apply (inj (String.app "-")) in Heq.
  - change ("" +:+ "-" +:+ s) with (String "-" s) in Heq.
    injection Heq as <- _. simpl in Hh'. done.
  - change ("" +:+ "-" +:+ s') with (String "-" s') in Heq.
    injection Heq as -> _. simpl in Hh. done.
  - injection Heq as -> Heq. simpl in Hh, Hh'.
    apply andb_true_iff in Hh as [_ Hh]. apply andb_true_iff in Hh' as [_ Hh'].
    destruct (IH h' Hh Hh' Heq) as [-> ->]. done.
Qed.

Lemma noDash_pretty_N_go (x : N) (s : string) :
  noDash s = true -> noDash (pretty_N_go x s) = true.
Proof.
  revert s. induction (N.lt_wf_0 x) as [x _ IH]; intros s Hs.
  assert (x = 0 \/ 0 < x)%N as [->|Hpos] by lia.
  - by rewrite pretty_N_go_0.
  - rewrite pretty_N_go_step by done. apply IH.
    { by apply N.div_lt. }
    simpl. rewrite Hs. unfold pretty_N_char. by repeat case_match.
Qed.

(** The decimal form of a clock reading that is not negative has no
    dash. *)
Lemma noDash_pretty (now : Z) : 0 <= now -> noDash (pretty now) = true.
Proof.
  intros Hnow. destruct now as [|p|p]; [done| |lia].
  unfold pretty, pretty_Z, pretty, pretty_positive, pretty, pretty_N.
  case_decide; [done|]. by apply noDash_pretty_N_go.
Qed.

Section Further.
Context `{Storage} `{Host}.

(** ** Completion marks *)

Lemma isHabitCompleted_toggle_other_key (h h' : string) (d d' : JsDate)
    (state : OrdiaaState) :
  completionKey h' (formatDate d') ≠ completionKey h (formatDate d) ->
  isHabitCompleted (toggleHabit h d state) h' d' = isHabitCompleted state h' d'.
Proof.
  intros Hne. unfold isHabitCompleted, toggleHabit. simpl.
  by rewrite lookup_insert_ne.
Qed.

(** X1: one [toggleHabit] negates what [isHabitCompleted] answers for
    that habit and date, so the first toggle of a mark that was never
    written makes it true; the answer for another habit on the same
    date and for the same habit on a date of another key is as before. *)
Theorem toggleHabit_one_mark (h : string) (d : JsDate) (state : OrdiaaState) :
  isHabitCompleted (toggleHabit h d state) h d = negb (isHabitCompleted state h d)
  /\ (completions state !! completionKey h (formatDate d) = None ->
      isHabitCompleted (toggleHabit h d state) h d = true)
  /\ (forall h', h' ≠ h ->
        isHabitCompleted (toggleHabit h d state) h' d = isHabitCompleted state h' d)
  /\ (forall d', formatDate d' ≠ formatDate d ->
        isHabitCompleted (toggleHabit h d state) h d' = isHabitCompleted state h d').
Proof.
  assert (Hflip : isHabitCompleted (toggleHabit h d state) h d
                  = negb (isHabitCompleted state h d)).
  { unfold isHabitCompleted, toggleHabit. simpl. by rewrite lookup_insert_eq. }
  split; [exact Hflip|]. split; [|split].
  - intros Hnone. rewrite Hflip. unfold isHabitCompleted. by rewrite Hnone.
  - intros h' Hne. apply isHabitCompleted_toggle_other_key.
    intros Heq. by apply completionKey_same_date in Heq.
  - intros d' Hne. apply isHabitCompleted_toggle_other_key.
    intros Heq. by apply completionKey_same_habit in Heq.
Qed.

(** X2: between habit ids without a dash, such as the ids [addHabit]
    makes, [toggleHabit] changes the answer of [isHabitCompleted] for
    its own habit and date key only. *)
Theorem toggleHabit_other_marks (h h' : string) (d d' : JsDate) (state : OrdiaaState)
    (Hh : noDash h = true) (Hh' : noDash h' = true)
    (Hother : h' ≠ h \/ formatDate d' ≠ formatDate d) :
  isHabitCompleted (toggleHabit h d state) h' d' = isHabitCompleted state h' d'.
Proof.
  apply isHabitCompleted_toggle_other_key. intros Heq.
  apply completionKey_inj in Heq as [-> Hdate]; [|done..].
  by destruct Hother.
Qed.

(** ** The habit sequence *)

Lemma habitIds_addHabit (now : Z) (name emoji : string) (state : OrdiaaState) :
  habitIds (addHabit now name emoji state) = habitIds state ++ [pretty now].
Proof. unfold habitIds, addHabit. simpl. by rewrite fmap_app. Qed.

Lemma deleteHabit_filter_absent (h : string) (l : list Habit.t) :
  h ∉ Habit.id <$> l ->
  List.filter (fun x => negb (String.eqb (Habit.id x) h)) l = l.
Proof.
  intros Habsent. apply filter_all. intros x Hx. apply negb_true_iff.
  destruct (String.eqb_spec (Habit.id x) h) as [Heq|]; [|done].
  destruct Habsent. apply list_elem_of_fmap. by exists x.
Qed.

(** X3: [addHabit] puts one habit of the given name and emoji at the
    end of the habit sequence, its id being the decimal form of the
    clock reading; two calls at different readings make different ids,
    so the ids stay without repetition when the new one is not in use,
    and an id made at a reading that is not negative has no dash. *)
Theorem addHabit_fresh_id (now : Z) (name emoji : string) (state : OrdiaaState) :
  habits (addHabit now name emoji state)
  = habits state ++ [ {| Habit.id := pretty now; Habit.name := name; Habit.emoji := emoji |} ]
  /\ (forall now' name' emoji', now' ≠ now ->
        habitIds (addHabit now' name' emoji' (addHabit now name emoji state))
        = habitIds state ++ [pretty now; pretty now']
        /\ pretty now' ≠ pretty now)
  /\ (NoDup (habitIds state) -> pretty now ∉ habitIds state ->
      NoDup (habitIds (addHabit now name emoji state)))
  /\ (0 <= now -> noDash (pretty now) = true).
Proof.
  split; [done|]. split; [|split].
  - intros now' name' emoji' Hne. rewrite !habitIds_addHabit, <- app_assoc.
    split; [done|]. intros Heq. by apply (inj pretty) in Heq.
  - intros Hnodup Hfresh. rewrite habitIds_addHabit.
    apply NoDup_app. split; [done|]. split.
    + intros x Hx Hin. apply list_elem_of_singleton in Hin. by subst.
    + apply NoDup_singleton.
  - apply noDash_pretty.
Qed.

Lemma deleteHabit_unused (h : string) (state : OrdiaaState) :
  h ∉ habitIds state -> deleteHabit h state = state.
Proof.
  intros Habsent. unfold deleteHabit.
  rewrite deleteHabit_filter_absent by done. by destruct state.
Qed.

(** X4: [deleteHabit] of an id that no habit has returns the state
    unchanged; in every case a second [deleteHabit] of the same id
    changes nothing more, no habit of that id is left, and ids without
    repetition stay so. *)
Theorem deleteHabit_absent (h : string) (state : OrdiaaState) :
  (h ∉ habitIds state -> deleteHabit h state = state)
  /\ deleteHabit h (deleteHabit h state) = deleteHabit h state
  /\ (h ∉ habitIds (deleteHabit h state))
  /\ (NoDup (habitIds state) -> NoDup (habitIds (deleteHabit h state))).
Proof.
  assert (Hgone : h ∉ habitIds (deleteHabit h state)).
  { unfold habitIds, deleteHabit. simpl. intros Hin.
    apply list_elem_of_fmap in Hin as (x & -> & Hx).
    apply list_elem_of_In, filter_In in Hx as [_ Hx].
    apply negb_true_iff in Hx. by rewrite String.eqb_refl in Hx. }
  split; [|split; [|split]].
  - apply deleteHabit_unused.
  - unfold deleteHabit at 1. rewrite deleteHabit_filter_absent by done.
    by destruct (deleteHabit h state).
  - exact Hgone.
  - unfold habitIds, deleteHabit. simpl.
    induction (habits state) as [|x l IH]; [done|].
    intros Hnodup. rewrite fmap_cons in Hnodup.
    apply NoDup_cons in Hnodup as [Hx Hl]. simpl.
    destruct (negb (String.eqb (Habit.id x) h)); [|by apply IH].
    rewrite fmap_cons. apply NoDup_cons. split; [|by apply IH].
    intros Hin. apply Hx. apply list_elem_of_fmap in Hin as (y & -> & Hy).
    apply list_elem_of_fmap. exists y. split; [done|].
    apply list_elem_of_In, filter_In in Hy as [Hy _]. by apply list_elem_of_In.
Qed.

(** X5: [deleteHabit] of the id a preceding [addHabit] made takes the
    new habit out again: when the id was not in use the state is the one
    before [addHabit]; and two habits added at the same clock reading
    share their id and go together. *)
Theorem addHabit_deleteHabit (now : Z) (name emoji : string) (state : OrdiaaState) :
  (pretty now ∉ habitIds state ->
   deleteHabit (pretty now) (addHabit now name emoji state) = state)
  /\ (forall name' emoji',
        deleteHabit (pretty now)
          (addHabit now name' emoji' (addHabit now name emoji state))
        = deleteHabit (pretty now) state).
Proof.
  assert (Hdrop : forall st n e,
    deleteHabit (pretty now) (addHabit now n e st) = deleteHabit (pretty now) st).
  { intros st n e. unfold deleteHabit, addHabit. simpl. f_equal.
    rewrite List.filter_app. simpl. rewrite String.eqb_refl. simpl.
    by rewrite app_nil_r. }
  split.
  - intros Hfresh. rewrite Hdrop. by apply deleteHabit_unused.
  - intros name' emoji'. by rewrite !Hdrop.
Qed.

(** ** The completed count and the rate *)

Lemma completedHabits_toggle_absent (h : string) (d : JsDate) (dateStr : string)
    (state : OrdiaaState) :
  (forall x, x ∈ habits state ->
     completionKey (Habit.id x) dateStr ≠ completionKey h (formatDate d)) ->
  completedHabits (toggleHabit h d state) dateStr = completedHabits state dateStr.
Proof.
  unfold completedHabits, toggleHabit. simpl.
  induction (habits state) as [|x l IH]; intros Hkeys; [done|]. simpl.
  rewrite lookup_insert_ne by (apply not_eq_sym, Hkeys, list_elem_of_here).
  rewrite IH; [done|]. intros y Hy. by apply Hkeys, list_elem_of_further.
Qed.

Lemma completedHabits_toggle_count (h : string) (d : JsDate) (l : list Habit.t)
    (marks : gmap string bool) :
  NoDup (Habit.id <$> l) -> h ∈ Habit.id <$> l ->
  let key x := completionKey (Habit.id x) (formatDate d) in
  let marks' := <[completionKey h (formatDate d) :=
                  negb (truthy (marks !! completionKey h (formatDate d)))]> marks in
  length (List.filter (fun x => truthy (marks' !! key x)) l)
  = if truthy (marks !! completionKey h (formatDate d))
    then Nat.pred (length (List.filter (fun x => truthy (marks !! key x)) l))
    else S (length (List.filter (fun x => truthy (marks !! key x)) l)).
Proof.
  intros Hnodup Hin key marks'.
  assert (Hrest : forall l' : list Habit.t, h ∉ Habit.id <$> l' ->
    List.filter (fun x => truthy (marks' !! key x)) l'
    = List.filter (fun x => truthy (marks !! key x)) l').
  { intros l' Hnot. induction l' as [|y l' IH]; [done|].
    rewrite fmap_cons in Hnot. apply not_elem_of_cons in Hnot as [Hy Hl'].
    simpl. unfold marks' at 1, key at 1. rewrite lookup_insert_ne.
    - fold (key y). by rewrite (IH Hl').
    - intros Heq. apply completionKey_same_date in Heq. congruence. }
  induction l as [|x l IH]; [by apply elem_of_nil in Hin|].
  rewrite fmap_cons in Hnodup, Hin. apply NoDup_cons in Hnodup as [Hx Hl].
  simpl. destruct (decide (Habit.id x = h)) as [Hid|Hid].
  - rewrite Hrest by (by rewrite <- Hid).
    unfold marks', key. rewrite Hid, lookup_insert_eq.
    by destruct (truthy (marks !! completionKey h (formatDate d))).
  - apply elem_of_cons in Hin as [Hin|Hin]; [congruence|].
    assert (Hhead : marks' !! key x = marks !! key x).
    { unfold marks', key. rewrite lookup_insert_ne; [done|].
      intros Heq. apply completionKey_same_date in Heq. congruence. }
    rewrite Hhead. specialize (IH Hl Hin).
    destruct (truthy (marks !! key x)); simpl; rewrite IH; [|done].
    destruct (truthy (marks !! completionKey h (formatDate d))) eqn:Hold; [|done].
    (* the habit [h] of [l] was counted, so the count of [l] is not zero *)
    apply list_elem_of_fmap in Hin as (y & -> & Hy).
    assert (Hcounted : y ∈ List.filter (fun x => truthy (marks !! key x)) l).
    { apply list_elem_of_In, filter_In. split; [by apply list_elem_of_In|done]. }
    destruct (List.filter (fun x => truthy (marks !! key x)) l);
      [by apply elem_of_nil in Hcounted|done].
Qed.

(** X6: when the habit ids have no repetition, [toggleHabit] of a listed
    habit moves the count of habits completed on that date by one: up
    when the habit was not completed, down when it was; the number of
    habits is the same.  [toggleHabit] of an id that no habit has keeps
    the count and the rate of that date. *)
Theorem toggleHabit_count (h : string) (d : JsDate) (state : OrdiaaState) :
  (NoDup (habitIds state) -> h ∈ habitIds state ->
   length (completedHabits (toggleHabit h d state) (formatDate d))
   = if isHabitCompleted state h d
     then Nat.pred (length (completedHabits state (formatDate d)))
     else S (length (completedHabits state (formatDate d))))
  /\ length (habits (toggleHabit h d state)) = length (habits state)
  /\ (h ∉ habitIds state ->
      completedHabits (toggleHabit h d state) (formatDate d)
      = completedHabits state (formatDate d)
      /\ getCompletionRate (toggleHabit h d state) d = getCompletionRate state d).
Proof.
  split; [|split; [done|]].
  - intros Hnodup Hin.
    apply (completedHabits_toggle_count h d (habits state) (completions state));
      assumption.
  - intros Habsent.
    assert (Hsame : completedHabits (toggleHabit h d state) (formatDate d)
                    = completedHabits state (formatDate d)).
    { apply completedHabits_toggle_absent. intros x Hx Heq.
      apply completionKey_same_date in Heq. apply Habsent.
      apply list_elem_of_fmap. by exists x. }
    split; [exact Hsame|]. unfold getCompletionRate. by rewrite Hsame.
Qed.

(** X7: when the toggled id and the ids of the habits have no dash,
    [toggleHabit] on one date keeps the rate of every date of another
    key. *)
Theorem toggleHabit_rate_other_day (h : string) (d d' : JsDate) (state : OrdiaaState)
    (Hh : noDash h = true)
    (Hids : Forall (fun x => noDash (Habit.id x) = true) (habits state))
    (Hday : formatDate d' ≠ formatDate d) :
  getCompletionRate (toggleHabit h d state) d' = getCompletionRate state d'.
Proof.
  unfold getCompletionRate.
  rewrite (completedHabits_toggle_absent h d (formatDate d') state); [done|].
  intros x Hx Heq. rewrite Forall_forall in Hids.
  apply completionKey_inj in Heq as [_ Heq]; [done| |done].
  by apply Hids.
Qed.

Lemma roundedPercent_range (k n : nat) :
  (k <= n)%nat -> 0 <= roundedPercent k n <= 100.
Proof.
  intros Hk. unfold roundedPercent. destruct (Nat.eqb_spec n 0); [lia|].
  split.
  - apply Z.div_pos; lia.
  - apply Z.lt_succ_r. apply Z.div_lt_upper_bound; lia.
Qed.

(** X8: with at most 200 habits the rate is an integer from 0 to 100,
    it is 0 when no habit is completed on the date and 100 when every
    habit is. *)
Theorem getCompletionRate_range (state : OrdiaaState) (d : JsDate)
    (Hsize : (length (habits state) <= 200)%nat) :
  0 <= getCompletionRate state d <= 100
  /\ (completedHabits state (formatDate d) = [] -> getCompletionRate state d = 0)
  /\ (habits state ≠ [] -> completedHabits state (formatDate d) = habits state ->
      getCompletionRate state d = 100).
Proof.
  destruct (decide (habits state = [])) as [Hnil|Hne].
  { rewrite getCompletionRate_no_habits by done. split; [lia|]. split; done. }
  pose proof (markedTrue_le state (formatDate d)) as Hle.
  pose proof (roundedPercent_range _ _ Hle) as Hrange.
  destruct (getCompletionRate_up_to_200 state d Hne Hsize) as [Hexact Hnear].
  assert (Hpos : (0 < length (habits state))%nat).
  { destruct (habits state); [done|simpl; lia]. }
  split; [|split].
  - split; [|lia].
    destruct (isTie (markedTrue state (formatDate d)) (length (habits state))) eqn:Htie.
    + (* on a tie the percentage is at least one half, so it rounds to at least 1 *)
      enough (1 <= roundedPercent (markedTrue state (formatDate d))
                     (length (habits state))) by lia.
      unfold isTie in Htie. apply Z.eqb_eq in Htie.
      unfold roundedPercent. destruct (Nat.eqb_spec (length (habits state)) 0); [lia|].
      apply Z.div_le_lower_bound; [lia|].
      pose proof (Z.mod_le (200 * Z.of_nat (markedTrue state (formatDate d)))
                    (2 * Z.of_nat (length (habits state)))) as Hmod.
      lia.
    + rewrite Hexact by done. lia.
  - intros Hnone. rewrite Hexact.
    + rewrite <- completedHabits_length, Hnone. unfold roundedPercent. simpl length.
      destruct (Nat.eqb_spec (length (habits state)) 0); [done|].
      apply Z.div_small. lia.
    + rewrite <- completedHabits_length, Hnone. unfold isTie. simpl length.
      apply Z.eqb_neq. rewrite Z.mod_0_l by lia. lia.
  - intros _ Hall. rewrite Hexact.
    + rewrite <- completedHabits_length, Hall. unfold roundedPercent.
      destruct (Nat.eqb_spec (length (habits state)) 0); [lia|].
      symmetry. apply Z.div_unique with (r := Z.of_nat (length (habits state))); lia.
    + rewrite <- completedHabits_length, Hall. unfold isTie.
      apply Z.eqb_neq.
      replace (200 * Z.of_nat (length (habits state)))
        with (100 * (2 * Z.of_nat (length (habits state)))) by lia.
      rewrite Z.mod_mul by lia. lia.
Qed.

(** ** Logs *)

(** X9: [updateLog] overwrites: of two writes for the same date only
    the last one shows in the state; the text, the empty string too, is
    stored under the date's key; [getLog] returns it for every date of
    that key, and returns what it did before for a date of another key. *)
Theorem updateLog_overwrites (d : JsDate) (text : string) (state : OrdiaaState) :
  (forall text0, updateLog d text (updateLog d text0 state) = updateLog d text state)
  /\ logs (updateLog d text state) !! formatDate d = Some text
  /\ (forall d', formatDate d' = formatDate d ->
        getLog (updateLog d text state) d' = text)
  /\ (forall d', formatDate d' ≠ formatDate d ->
        getLog (updateLog d text state) d' = getLog state d').
Proof.
  split; [|split; [|split]].
  - intros text0. unfold updateLog. simpl. by rewrite insert_insert_eq.
  - unfold updateLog. simpl. apply lookup_insert_eq.
  - intros d' Heq. unfold getLog, updateLog. simpl.
    rewrite Heq, lookup_insert_eq. apply or_string_some.
  - intros d' Hne. unfold getLog, updateLog. simpl. by rewrite lookup_insert_ne.
Qed.

(** ** To-do items *)

Lemma filter_filter_same {A} (f : A -> bool) (l : list A) :
  List.filter f (List.filter f l) = List.filter f l.
Proof.
  apply filter_all. intros a Ha.
  by apply list_elem_of_In, filter_In in Ha as [_ Ha].
Qed.

Lemma todos_rewritten (state : OrdiaaState) (key : string) (l l' : list TodoItem.t)
    (hs : list Habit.t) (cs : gmap string bool) (ls : gmap string string) :
  mkState hs cs ls (<[key := l']> (<[key := l]> (todos state)))
  = mkState hs cs ls (<[key := l']> (todos state)).
Proof. by rewrite insert_insert_eq. Qed.

(** X10: after [deleteTodo] the date's sequence holds the items of
    other ids, in their order, and no item of the given id; a second
    [deleteTodo] of the same id leaves the state as it is; the sequences
    under the other keys are not touched. *)
Theorem deleteTodo_removes (d : JsDate) (todoId : string) (state : OrdiaaState) :
  (forall item, item ∈ getTodos (deleteTodo d todoId state) d
                <-> item ∈ getTodos state d /\ TodoItem.id item ≠ todoId)
  /\ sublist (getTodos (deleteTodo d todoId state) d) (getTodos state d)
  /\ deleteTodo d todoId (deleteTodo d todoId state) = deleteTodo d todoId state
  /\ (forall key, key ≠ formatDate d ->
        todos (deleteTodo d todoId state) !! key = todos state !! key).
Proof.
  split; [|split; [|split]].
  - intros item. rewrite getTodos_deleteTodo.
    rewrite !list_elem_of_In, filter_In, negb_true_iff.
    destruct (String.eqb_spec (TodoItem.id item) todoId); intuition congruence.
  - rewrite getTodos_deleteTodo. apply filter_sublist.
  - unfold deleteTodo at 1.
    fold (getTodos (deleteTodo d todoId state) d).
    rewrite getTodos_deleteTodo, filter_filter_same.
    unfold deleteTodo. simpl. fold (getTodos state d). apply todos_rewritten.
  - intros key Hne. unfold deleteTodo. simpl. by rewrite lookup_insert_ne.
Qed.

(** X11: [deleteTodo] of the id a preceding [addTodo] made takes the new
    item out again, together with any older item of the same id; when
    the id was not in use the date's sequence is the one before
    [addTodo]. *)
Theorem addTodo_deleteTodo (now : Z) (d : JsDate) (text : string)
    (priority : option TodoPriority.t) (status : option TodoStatus.t)
    (state : OrdiaaState) :
  getTodos (deleteTodo d (pretty now) (addTodo now d text priority status state)) d
  = getTodos (deleteTodo d (pretty now) state) d
  /\ (pretty now ∉ TodoItem.id <$> getTodos state d ->
      getTodos (deleteTodo d (pretty now) (addTodo now d text priority status state)) d
      = getTodos state d).
Proof.
  assert (Hdrop :
    getTodos (deleteTodo d (pretty now) (addTodo now d text priority status state)) d
    = getTodos (deleteTodo d (pretty now) state) d).
  { rewrite !getTodos_deleteTodo, getTodos_addTodo, List.filter_app. simpl.
    rewrite String.eqb_refl. simpl. apply app_nil_r. }
  split; [exact Hdrop|].
  intros Hfresh. rewrite Hdrop, getTodos_deleteTodo.
  apply filter_all. intros item Hitem. apply negb_true_iff.
  destruct (String.eqb_spec (TodoItem.id item) (pretty now)) as [Heq|]; [|done].
  destruct Hfresh. apply list_elem_of_fmap. by exists item.
Qed.

Lemma toggleItem_twice (todoId : string) (item : TodoItem.t) :
  toggleItem todoId (toggleItem todoId item)
  = if String.eqb (TodoItem.id item) todoId
    then {| TodoItem.id := TodoItem.id item;
            TodoItem.text := TodoItem.text item;
            TodoItem.completed := TodoItem.completed item;
            TodoItem.status :=
              if TodoItem.completed item then TodoStatus.done else TodoStatus.todo;
            TodoItem.priority := TodoItem.priority item;
            TodoItem.createdAt := TodoItem.createdAt item |}
    else item.
Proof.
  unfold toggleItem.
  destruct (String.eqb (TodoItem.id item) todoId) eqn:Hid; simpl; rewrite Hid; [|done].
  by destruct (TodoItem.completed item).
Qed.

Lemma toggleItem_twice_plain (todoId : string) (item : TodoItem.t) :
  plainStatus item -> toggleItem todoId (toggleItem todoId item) = item.
Proof.
  intros Hplain. rewrite toggleItem_twice.
  destruct (String.eqb (TodoItem.id item) todoId); [|done].
  destruct item as [i t c s p ca]. unfold plainStatus in Hplain. simpl in *.
  by rewrite <- Hplain.
Qed.

(** X12: two [toggleTodo] of the same id bring back the [completed]
    flag of every item of that id, but they leave its status at
    ["done"] for a completed item and at ["todo"] for the others, so a
    status ["doing"] is lost; the other fields are kept.  When every
    item of the date had the status its flag calls for, the date's
    sequence is the one before the two calls. *)
Theorem toggleTodo_twice (d : JsDate) (todoId : string) (state : OrdiaaState) :
  (forall i item,
     getTodos state d !! i = Some item -> TodoItem.id item = todoId ->
     getTodos (toggleTodo d todoId (toggleTodo d todoId state)) d !! i
     = Some {| TodoItem.id := TodoItem.id item;
               TodoItem.text := TodoItem.text item;
               TodoItem.completed := TodoItem.completed item;
               TodoItem.status :=
                 if TodoItem.completed item then TodoStatus.done else TodoStatus.todo;
               TodoItem.priority := TodoItem.priority item;
               TodoItem.createdAt := TodoItem.createdAt item |})
  /\ (forall i item,
        getTodos state d !! i = Some item -> TodoItem.id item ≠ todoId ->
        getTodos (toggleTodo d todoId (toggleTodo d todoId state)) d !! i = Some item)
  /\ (Forall plainStatus (getTodos state d) ->
      getTodos (toggleTodo d todoId (toggleTodo d todoId state)) d = getTodos state d).
Proof.
  rewrite !getTodos_toggleTodo.
  change (List.map (toggleItem todoId) (List.map (toggleItem todoId) (getTodos state d)))
    with (toggleItem todoId <$> (toggleItem todoId <$> getTodos state d)).
  rewrite <- list_fmap_compose.
  split; [|split].
  - intros i item Hi Hid. rewrite list_lookup_fmap, Hi. simpl.
    rewrite toggleItem_twice. by rewrite (proj2 (String.eqb_eq _ _) Hid).
  - intros i item Hi Hid. rewrite list_lookup_fmap, Hi. simpl.
    rewrite toggleItem_twice. by rewrite (proj2 (String.eqb_neq _ _) Hid).
  - intros Hplain. induction Hplain as [|item l Hitem _ IH]; [done|].
    rewrite fmap_cons, IH. simpl. by rewrite toggleItem_twice_plain.
Qed.

Lemma updateItem_twice (todoId : string) (updates : TodoItem.partial)
    (item : TodoItem.t) :
  updateItem todoId updates (updateItem todoId updates item)
  = updateItem todoId updates item.
Proof.
  unfold updateItem.
  destruct (String.eqb (TodoItem.id item) todoId) eqn:Hid; [|by rewrite Hid].
  destruct (String.eqb (TodoItem.id (TodoItem.merge item updates)) todoId); [|done].
  destruct item, updates as [[] [] [] [] [] []]; reflexivity.
Qed.

(** X13: [updateTodo] keeps the length and the order of the date's
    sequence; in an item of the given id every field the update gives
    replaces the item's and every other field is kept; an item of
    another id is kept; an update that gives no field keeps the whole
    sequence; a second [updateTodo] with the same arguments leaves the
    state as it is; the sequences under the other keys are not touched. *)
Theorem updateTodo_merges (d : JsDate) (todoId : string)
    (updates : TodoItem.partial) (state : OrdiaaState) :
  length (getTodos (updateTodo d todoId updates state) d) = length (getTodos state d)
  /\ (forall i item,
        getTodos state d !! i = Some item -> TodoItem.id item = todoId ->
        getTodos (updateTodo d todoId updates state) d !! i
        = Some {| TodoItem.id := default (TodoItem.id item) (TodoItem.id' updates);
                  TodoItem.text := default (TodoItem.text item) (TodoItem.text' updates);
                  TodoItem.completed :=
                    default (TodoItem.completed item) (TodoItem.completed' updates);
                  TodoItem.status :=
                    default (TodoItem.status item) (TodoItem.status' updates);
                  TodoItem.priority :=
                    default (TodoItem.priority item) (TodoItem.priority' updates);
                  TodoItem.createdAt :=
                    default (TodoItem.createdAt item) (TodoItem.createdAt' updates) |})
  /\ (forall i item,
        getTodos state d !! i = Some item -> TodoItem.id item ≠ todoId ->
        getTodos (updateTodo d todoId updates state) d !! i = Some item)
  /\ getTodos (updateTodo d todoId TodoItem.no_update state) d = getTodos state d
  /\ updateTodo d todoId updates (updateTodo d todoId updates state)
     = updateTodo d todoId updates state
  /\ (forall key, key ≠ formatDate d ->
        todos (updateTodo d todoId updates state) !! key = todos state !! key).
Proof.
  split; [|split; [|split; [|split; [|split]]]].
  - rewrite getTodos_updateTodo. apply length_map.
  - intros i item Hi Hid. rewrite getTodos_updateTodo.
    change (List.map (updateItem todoId updates) (getTodos state d))
      with (updateItem todoId updates <$> getTodos state d).
    rewrite list_lookup_fmap, Hi. simpl. f_equal.
    unfold updateItem. by rewrite (proj2 (String.eqb_eq _ _) Hid).
  - intros i item Hi Hid. rewrite getTodos_updateTodo.
    change (List.map (updateItem todoId updates) (getTodos state d))
      with (updateItem todoId updates <$> getTodos state d).
    rewrite list_lookup_fmap, Hi. simpl. f_equal. by apply updateItem_other.
  - rewrite getTodos_updateTodo. apply map_unchanged. intros item _.
    unfold updateItem. destruct (String.eqb (TodoItem.id item) todoId); [|done].
    by destruct item.
  - unfold updateTodo at 1.
    fold (getTodos (updateTodo d todoId updates state) d).
    rewrite getTodos_updateTodo, List.map_map.
    rewrite (List.map_ext _ _ (updateItem_twice todoId updates)).
    unfold updateTodo. simpl. fold (getTodos state d). apply todos_rewritten.
  - intros key Hne. unfold updateTodo. simpl. by rewrite lookup_insert_ne.
Qed.

(** ** Invariants of the stored items *)

(** A property of every stored item holds after a write of one key when
    it held before and holds of the items written. *)
Lemma stored_items_written (P : string -> TodoItem.t -> Prop)
    (state : OrdiaaState) (key : string) (l : list TodoItem.t)
    (hs : list Habit.t) (cs : gmap string bool) (ls : gmap string string) :
  (forall k l0, todos state !! k = Some l0 -> Forall (P k) l0) ->
  Forall (P key) l ->
  forall k l0,
    todos (mkState hs cs ls (<[key := l]> (todos state))) !! k = Some l0 ->
    Forall (P k) l0.
Proof.
  intros Hinv Hl k l0. simpl. destruct (decide (key = k)) as [<-|Hne].
  - rewrite lookup_insert_eq. by intros [= <-].
  - rewrite lookup_insert_ne by done. apply Hinv.
Qed.

Lemma stored_items_read (P : string -> TodoItem.t -> Prop)
    (state : OrdiaaState) (d : JsDate) :
  (forall k l0, todos state !! k = Some l0 -> Forall (P k) l0) ->
  Forall (P (formatDate d)) (default [] (todos state !! formatDate d)).
Proof.
  intros Hinv. destruct (todos state !! formatDate d) as [l|] eqn:Hl; simpl.
  - by eapply Hinv.
  - constructor.
Qed.

Lemma Forall_filter_bool {A} (P : A -> Prop) (f : A -> bool) (l : list A) :
  Forall P l -> Forall P (List.filter f l).
Proof.
  induction 1 as [|a l Ha _ IH]; simpl; [constructor|].
  destruct (f a); [by constructor|done].
Qed.

Lemma Forall_map_same {A} (P : A -> Prop) (f : A -> A) (l : list A) :
  (forall a, P a -> P (f a)) -> Forall P l -> Forall P (List.map f l).
Proof.
  intros Hf. induction 1 as [|a l Ha _ IH]; simpl; constructor; auto.
Qed.

Lemma toggleItem_inSync (todoId : string) (item : TodoItem.t) :
  inSync item -> inSync (toggleItem todoId item).
Proof.
  intros Hsync. unfold toggleItem.
  destruct (String.eqb (TodoItem.id item) todoId); [|done].
  unfold inSync. simpl. by destruct (TodoItem.completed item).
Qed.

Lemma updateItem_inSync (todoId : string) (updates : TodoItem.partial)
    (item : TodoItem.t) :
  keepsProgress updates -> inSync item -> inSync (updateItem todoId updates item).
Proof.
  intros [Hc Hs] Hsync. unfold updateItem.
  destruct (String.eqb (TodoItem.id item) todoId); [|done].
  unfold inSync, TodoItem.merge. simpl. by rewrite Hc, Hs.
Qed.

(** X14: the agreement of [completed] with [status] in every stored
    item is kept by [addTodo], [toggleTodo] and [deleteTodo], and by an
    [updateTodo] that gives neither of the two fields; the empty state
    has it. *)
Theorem allInSync_kept (state : OrdiaaState) (Hinv : allInSync state) :
  (forall now d text priority status,
     allInSync (addTodo now d text priority status state))
  /\ (forall d todoId, allInSync (toggleTodo d todoId state))
  /\ (forall d todoId, allInSync (deleteTodo d todoId state))
  /\ (forall d todoId updates, keepsProgress updates ->
        allInSync (updateTodo d todoId updates state))
  /\ allInSync defaultState.
Proof.
  assert (Hread : forall d : JsDate,
            Forall inSync (default [] (todos state !! formatDate d))).
  { intros d. by apply (stored_items_read (fun _ => inSync)). }
  unfold allInSync in *.
  split; [|split; [|split; [|split]]].
  - intros now d text priority status.
    apply (stored_items_written (fun _ => inSync) state); [exact Hinv|].
    apply Forall_app. split; [apply Hread|].
    constructor; [|constructor]. reflexivity.
  - intros d todoId.
    apply (stored_items_written (fun _ => inSync) state); [exact Hinv|].
    apply Forall_map_same; [intros item; apply toggleItem_inSync|apply Hread].
  - intros d todoId.
    apply (stored_items_written (fun _ => inSync) state); [exact Hinv|].
    apply Forall_filter_bool. apply Hread.
  - intros d todoId updates Hkeeps.
    apply (stored_items_written (fun _ => inSync) state); [exact Hinv|].
    apply Forall_map_same; [intros item; by apply updateItem_inSync|apply Hread].
  - intros key l Hl. simpl in Hl. by rewrite lookup_empty in Hl.
Qed.

(** X15: that every stored item was created at the key it is stored
    under is kept by [addTodo], [toggleTodo] and [deleteTodo], and by an
    [updateTodo] that does not give [createdAt]; the empty state has
    it. *)
Theorem filedByDate_kept (state : OrdiaaState) (Hinv : filedByDate state) :
  (forall now d text priority status,
     filedByDate (addTodo now d text priority status state))
  /\ (forall d todoId, filedByDate (toggleTodo d todoId state))
  /\ (forall d todoId, filedByDate (deleteTodo d todoId state))
  /\ (forall d todoId updates, TodoItem.createdAt' updates = None ->
        filedByDate (updateTodo d todoId updates state))
  /\ filedByDate defaultState.
Proof.
  set (P := fun (key : string) (item : TodoItem.t) => TodoItem.createdAt item = key).
  assert (Hread : forall d : JsDate,
            Forall (P (formatDate d)) (default [] (todos state !! formatDate d))).
  { intros d. by apply (stored_items_read P). }
  unfold filedByDate in *. fold P in Hinv |- *.
  split; [|split; [|split; [|split]]].
  - intros now d text priority status.
    apply (stored_items_written P state); [exact Hinv|].
    apply Forall_app. split; [apply Hread|].
    constructor; [|constructor]. reflexivity.
  - intros d todoId.
    apply (stored_items_written P state); [exact Hinv|].
    apply Forall_map_same; [|apply Hread].
    intros item Hitem. unfold toggleItem.
    by destruct (String.eqb (TodoItem.id item) todoId).
  - intros d todoId.
    apply (stored_items_written P state); [exact Hinv|].
    apply Forall_filter_bool. apply Hread.
  - intros d todoId updates Hkeeps.
    apply (stored_items_written P state); [exact Hinv|].
    apply Forall_map_same; [|apply Hread].
    intros item Hitem. unfold updateItem.
    destruct (String.eqb (TodoItem.id item) todoId); [|done].
    unfold P, TodoItem.merge. simpl. by rewrite Hkeeps.
  - intros key l Hl. simpl in Hl. by rewrite lookup_empty in Hl.
Qed.

Lemma NoDup_fmap_filter_bool {A B} (g : A -> B) (f : A -> bool) (l : list A) :
  NoDup (g <$> l) -> NoDup (g <$> List.filter f l).
Proof.
  induction l as [|a l IH]; [done|]. rewrite fmap_cons. intros Hnodup.
  apply NoDup_cons in Hnodup as [Ha Hl]. simpl.
  destruct (f a); [|by apply IH].
  rewrite fmap_cons. apply NoDup_cons. split; [|by apply IH].
  intros Hin. apply Ha. apply list_elem_of_fmap in Hin as (y & -> & Hy).
  apply list_elem_of_fmap. exists y. split; [done|].
  apply list_elem_of_In, filter_In in Hy as [Hy _]. by apply list_elem_of_In.
Qed.

(** X16: the ids of the date's sequence are the same, in the same
    order, after [toggleTodo], and after an [updateTodo] that does not
    give [id]; ids without repetition stay so after [deleteTodo], and
    after [addTodo] when the new id is not in use. *)
Theorem todo_ids_kept (d : JsDate) (todoId : string) (state : OrdiaaState) :
  TodoItem.id <$> getTodos (toggleTodo d todoId state) d
  = TodoItem.id <$> getTodos state d
  /\ (forall updates, TodoItem.id' updates = None ->
        TodoItem.id <$> getTodos (updateTodo d todoId updates state) d
        = TodoItem.id <$> getTodos state d)
  /\ (NoDup (TodoItem.id <$> getTodos state d) ->
      NoDup (TodoItem.id <$> getTodos (deleteTodo d todoId state) d))
  /\ (forall now text priority status,
        NoDup (TodoItem.id <$> getTodos state d) ->
        pretty now ∉ TodoItem.id <$> getTodos state d ->
        NoDup (TodoItem.id <$> getTodos (addTodo now d text priority status state) d)).
Proof.
  split; [|split; [|split]].
  - rewrite getTodos_toggleTodo.
    change (List.map (toggleItem todoId) (getTodos state d))
      with (toggleItem todoId <$> getTodos state d).
    rewrite <- list_fmap_compose. apply list_fmap_ext. intros i item _. simpl.
    unfold toggleItem. by destruct (String.eqb (TodoItem.id item) todoId).
  - intros updates Hid. rewrite getTodos_updateTodo.
    change (List.map (updateItem todoId updates) (getTodos state d))
      with (updateItem todoId updates <$> getTodos state d).
    rewrite <- list_fmap_compose. apply list_fmap_ext. intros i item _. simpl.
    unfold updateItem. destruct (String.eqb (TodoItem.id item) todoId); [|done].
    simpl. by rewrite Hid.
  - intros Hnodup. rewrite getTodos_deleteTodo. by apply NoDup_fmap_filter_bool.
  - intros now text priority status Hnodup Hfresh.
    rewrite getTodos_addTodo, fmap_app. apply NoDup_app. split; [done|]. split.
    + intros x Hx Hin. apply list_elem_of_singleton in Hin. by subst.
    + apply NoDup_singleton.
Qed.

(** ** The history of the chart *)

(** X17: for [days <= 0] the history is empty; and for [days >= 0],
    when the date [setDate] makes of the local time [days] calendar
    days before today is inside the range of [Date], the history of
    [days + 1] days is the history of [days] days with one entry put in
    front, that of this date: of the calendar day [days] days before
    today where the host's zone has that local time. *)
Theorem getCompletionHistory_grows (state : OrdiaaState) (today : JsDate) (days : Z) :
  (days <= 0 -> getCompletionHistory state today days = Some [])
  /\ (0 <= days ->
      Z.abs (timeValue (daysBefore today days)) <= maxTimeValue ->
      getCompletionHistory state today (days + 1)
      = cons (let date := localTime (timeValue (daysBefore today days)) in
              {| Point.date := toLocaleDateString date;
                 Point.rate := getCompletionRate state date |})
        <$> getCompletionHistory state today days)
  /\ (0 <= days ->
      Z.abs (timeValue (daysBefore today days)) <= maxTimeValue ->
      localTime (timeValue (daysBefore today days)) = daysBefore today days ->
      getCompletionHistory state today (days + 1)
      = cons (let date := mkDate (localDay today - days) (msInDay today) in
              {| Point.date := toLocaleDateString date;
                 Point.rate := getCompletionRate state date |})
        <$> getCompletionHistory state today days).
Proof.
  assert (Hgrow : 0 <= days ->
    Z.abs (timeValue (daysBefore today days)) <= maxTimeValue ->
    getCompletionHistory state today (days + 1)
    = cons (chartPoint state (localTime (timeValue (daysBefore today days))))
      <$> getCompletionHistory state today days).
  { intros Hdays Hrange. unfold getCompletionHistory.
    replace (Z.to_nat (days + 1)) with (S (Z.to_nat days)) by lia.
    cbn [historyLoop]. rewrite Z2Nat.id by done.
    rewrite historyPoint_in_range by done.
    apply (historyLoop_prefix state today (Z.to_nat days) [_] []). }
  split; [|split].
  - intros Hdays. unfold getCompletionHistory.
    by replace (Z.to_nat days) with 0%nat by lia.
  - exact Hgrow.
  - intros Hdays Hrange Hexists. rewrite Hgrow by done. by rewrite Hexists.
Qed.

(** ** Mutations of different days *)

Lemma TodoMutation_rewriteDay (d : JsDate) (m : OrdiaaState -> OrdiaaState) :
  TodoMutation d m -> exists f, forall state, m state = rewriteDay d f state.
Proof.
  intros Hm. inversion Hm as [now text priority status| todoId | todoId updates | todoId].
  - by exists (fun l => l ++ [ {| TodoItem.id := pretty now;
                                 TodoItem.text := text;
                                 TodoItem.completed :=
                                   bool_decide (default TodoStatus.todo status = TodoStatus.done);
                                 TodoItem.status := default TodoStatus.todo status;
                                 TodoItem.priority := default TodoPriority.medium priority;
                                 TodoItem.createdAt := formatDate d |} ]).
  - by exists (List.map (toggleItem todoId)).
  - by exists (List.map (updateItem todoId updates)).
  - by exists (List.filter (fun todo => negb (String.eqb (TodoItem.id todo) todoId))).
Qed.

Lemma rewriteDay_commute (d1 d2 : JsDate)
    (f1 f2 : list TodoItem.t -> list TodoItem.t) (state : OrdiaaState) :
  formatDate d1 ≠ formatDate d2 ->
  rewriteDay d1 f1 (rewriteDay d2 f2 state) = rewriteDay d2 f2 (rewriteDay d1 f1 state).
Proof.
  intros Hne. unfold rewriteDay at 1 3. simpl.
  unfold rewriteDay at 1 2.
  rewrite !getTodos_other by done. simpl.
  by rewrite insert_insert_ne.
Qed.

(** X18: two mutations of to-do items, each any of [addTodo],
    [toggleTodo], [updateTodo] and [deleteTodo], that work on dates of
    different keys give the same state in either order. *)
Theorem todo_mutations_commute (d1 d2 : JsDate)
    (m1 m2 : OrdiaaState -> OrdiaaState)
    (Hm1 : TodoMutation d1 m1) (Hm2 : TodoMutation d2 m2)
    (Hdays : formatDate d1 ≠ formatDate d2) :
  forall state, m1 (m2 state) = m2 (m1 state).
Proof.
  destruct (TodoMutation_rewriteDay d1 m1 Hm1) as [f1 Hf1].
  destruct (TodoMutation_rewriteDay d2 m2 Hm2) as [f2 Hf2].
  intros state. rewrite !Hf1, !Hf2. by apply rewriteDay_commute.
Qed.

(** ** Habits and the count, continued *)

Lemma filter_swap {A} (f g : A -> bool) (l : list A) :
  List.filter f (List.filter g l) = List.filter g (List.filter f l).
Proof.
  induction l as [|a l IH]; [done|]. simpl.
  destruct (f a) eqn:Hf, (g a) eqn:Hg; simpl; rewrite ?Hf, ?Hg, IH; done.
Qed.

Lemma deleteHabit_length (h : string) (l : list Habit.t) :
  NoDup (Habit.id <$> l) -> h ∈ Habit.id <$> l ->
  S (length (List.filter (fun x => negb (String.eqb (Habit.id x) h)) l)) = length l.
Proof.
  induction l as [|x l IH]; intros Hnodup Hin; [by apply elem_of_nil in Hin|].
  rewrite fmap_cons in Hnodup, Hin. apply NoDup_cons in Hnodup as [Hx Hl].
  simpl. destruct (String.eqb_spec (Habit.id x) h) as [Hid|Hid]; simpl.
  - rewrite deleteHabit_filter_absent; [done|]. by rewrite <- Hid.
  - apply elem_of_cons in Hin as [Hin|Hin]; [congruence|]. by rewrite IH.
Qed.

(** X19: when the habit ids have no repetition, [deleteHabit] of a
    listed habit makes the habit sequence one shorter; in every case the
    habits completed on a date afterwards are those completed before
    that have another id. *)
Theorem deleteHabit_count (h : string) (state : OrdiaaState) :
  (NoDup (habitIds state) -> h ∈ habitIds state ->
   S (length (habits (deleteHabit h state))) = length (habits state))
  /\ (forall dateStr,
        completedHabits (deleteHabit h state) dateStr
        = List.filter (fun x => negb (String.eqb (Habit.id x) h))
            (completedHabits state dateStr)).
Proof.
  split.
  - apply deleteHabit_length.
  - intros dateStr. unfold completedHabits, deleteHabit. simpl.
    apply filter_swap.
Qed.

(** X20: after [addHabit] the habits completed on a date are those
    completed before, followed by the new habit exactly when the
    completions hold a true mark under the new id and that date, as a
    deleted habit of the same id may have left. *)
Theorem addHabit_completed (now : Z) (name emoji : string) (dateStr : string)
    (state : OrdiaaState) :
  completedHabits (addHabit now name emoji state) dateStr
  = completedHabits state dateStr
    ++ (if truthy (completions state !! completionKey (pretty now) dateStr)
        then [ {| Habit.id := pretty now; Habit.name := name; Habit.emoji := emoji |} ]
        else []).
Proof.
  unfold completedHabits, addHabit. simpl. rewrite List.filter_app. simpl.
  by destruct (truthy (completions state !! completionKey (pretty now) dateStr)).
Qed.

End Further.

(** ** The store on sample inputs, with [isoDate] for [formatDate] *)

#[local] Existing Instance isoStorage.
#[local] Existing Instance utcHost.

(** C1, at an input where the code departs from it: with 40 habits of
    which 23 are marked true for the date, [getCompletionRate] returns
    57, whereas [100 * 23 / 40] is 57.5, which rounds to 58.  The
    binary64 quotient [23 / 40] times [100] is [57.49999999999999]. *)
Theorem getCompletionRate_tie_rounds_down :
  length (habits busyState) = 40%nat
  /\ markedTrue busyState (formatDate sampleDay) = 23%nat
  /\ getCompletionRate busyState sampleDay = 57
  /\ roundedPercent 23 40 = 58.
Proof. vm_compute. repeat split. Qed.

(** The specification's example: 2 of 4 habits completed give 50. *)
Example getCompletionRate_2_of_4 :
  getCompletionRate (toggleHabits 2 sampleDay (addHabits 4 defaultState)) sampleDay = 50.
Proof. vm_compute. reflexivity. Qed.

Lemma toggleHabit_twice_witness :
  completions defaultState !! completionKey "1" (formatDate sampleDay) = None
  /\ isHabitCompleted (toggleHabit "1" sampleDay (toggleHabit "1" sampleDay defaultState))
       "1" sampleDay = false.
Proof.
  split; [reflexivity|].
  rewrite (proj1 (@toggleHabit_twice isoStorage "1" sampleDay defaultState)).
  apply (proj1 (proj2 (@toggleHabit_twice isoStorage "1" sampleDay defaultState))).
  reflexivity.
Defined.

Lemma getLog_updateLog_witness :
  logs defaultState !! formatDate sampleDay = None
  /\ getLog defaultState sampleDay = ""
  /\ getLog (updateLog sampleDay "" (updateLog sampleDay "rain" defaultState)) sampleDay = "".
Proof.
  split; [reflexivity|]. split.
  - apply (proj2 (@getLog_updateLog isoStorage sampleDay defaultState)). reflexivity.
  - apply (proj1 (@getLog_updateLog isoStorage sampleDay
                    (updateLog sampleDay "rain" defaultState))).
Defined.

Lemma addTodo_appends_witness :
  getTodos milkState sampleDay
  = [ {| TodoItem.id := "5";
         TodoItem.text := "Buy milk";
         TodoItem.completed := false;
         TodoItem.status := TodoStatus.todo;
         TodoItem.priority := TodoPriority.high;
         TodoItem.createdAt := "2026-11-02" |} ]
  /\ "2026-11-03" ≠ formatDate sampleDay
  /\ todos milkState !! "2026-11-03" = todos defaultState !! "2026-11-03".
Proof.
  assert (Hne : "2026-11-03" ≠ formatDate sampleDay) by (vm_compute; discriminate).
  split; [|split; [exact Hne|]].
  - apply (proj1 (@addTodo_appends isoStorage 5 sampleDay "Buy milk"
                    TodoPriority.high TodoStatus.todo defaultState)).
  - apply (proj2 (@addTodo_appends isoStorage 5 sampleDay "Buy milk"
                    TodoPriority.high TodoStatus.todo defaultState)).
    exact Hne.
Defined.

Lemma milkState_has_5 : "5" ∈ List.map TodoItem.id (getTodos milkState sampleDay).
Proof. apply list_elem_of_In. vm_compute. left. reflexivity. Qed.

Lemma milkState_lacks_7 : "7" ∉ List.map TodoItem.id (getTodos milkState sampleDay).
Proof.
  intros Hin. apply list_elem_of_In in Hin. vm_compute in Hin.
  destruct Hin as [Heq|[]]. discriminate Heq.
Qed.

Lemma toggleTodo_flips_witness :
  "5" ∈ List.map TodoItem.id (getTodos milkState sampleDay)
  /\ getTodos (toggleTodo sampleDay "5" milkState) sampleDay !! 0%nat
     = Some {| TodoItem.id := "5";
               TodoItem.text := "Buy milk";
               TodoItem.completed := true;
               TodoItem.status := TodoStatus.done;
               TodoItem.priority := TodoPriority.high;
               TodoItem.createdAt := "2026-11-02" |}.
Proof.
  split; [exact milkState_has_5|].
  apply (proj1 (proj2 (proj2
           (@toggleTodo_flips isoStorage sampleDay "5" milkState milkState_has_5)))
           0%nat
           {| TodoItem.id := "5";
              TodoItem.text := "Buy milk";
              TodoItem.completed := false;
              TodoItem.status := TodoStatus.todo;
              TodoItem.priority := TodoPriority.high;
              TodoItem.createdAt := "2026-11-02" |});
    reflexivity.
Defined.

(** C4 fails as stated: on the empty state, where the date has no todo
    sequence and so no item of id ["1"], each of [toggleTodo],
    [updateTodo] and [deleteTodo] returns a state different from the
    empty one: its [todos] object has the key of the date. *)
Lemma missing_todo_changes_state :
  ("1" ∉ List.map TodoItem.id (getTodos defaultState sampleDay))
  /\ todos defaultState !! formatDate sampleDay = None
  /\ toggleTodo sampleDay "1" defaultState ≠ defaultState
  /\ updateTodo sampleDay "1" (statusOnly TodoStatus.doing) defaultState ≠ defaultState
  /\ deleteTodo sampleDay "1" defaultState ≠ defaultState.
Proof.
  split; [apply not_elem_of_nil|]. split; [reflexivity|].
  repeat split; intros Heq;
    apply (f_equal (fun s => todos s !! formatDate sampleDay)) in Heq;
    vm_compute in Heq; discriminate Heq.
Qed.

Lemma missing_todo_noop_witness :
  ("7" ∉ List.map TodoItem.id (getTodos milkState sampleDay))
  /\ is_Some (todos milkState !! formatDate sampleDay)
  /\ deleteTodo sampleDay "7" milkState = milkState.
Proof.
  assert (Hstored : is_Some (todos milkState !! formatDate sampleDay))
    by (vm_compute; eauto).
  split; [exact milkState_lacks_7|]. split; [exact Hstored|].
  apply (@missing_todo_noop isoStorage sampleDay "7" TodoItem.no_update milkState
           milkState_lacks_7 (deleteTodo sampleDay "7" milkState)).
  - rewrite !elem_of_cons. right. right. left. reflexivity.
  - exact Hstored.
Defined.



(** The specification's example: three entries, oldest first, the last
    one today's. *)
Example getCompletionHistory_3 :
  getCompletionHistory (toggleHabits 2 sampleDay (addHabits 4 defaultState)) sampleDay 3
  = Some [ {| Point.date := "Oct 31"; Point.rate := 0 |};
           {| Point.date := "Nov 1"; Point.rate := 0 |};
           {| Point.date := "Nov 2"; Point.rate := 50 |} ].
Proof. vm_compute. reflexivity. Qed.


(** ** The further properties on sample inputs *)

Lemma dayBefore_other_key : formatDate dayBefore ≠ formatDate sampleDay.
Proof. vm_compute. discriminate. Qed.

Lemma pairState_ids : habitIds pairState = ["1"; "2"].
Proof. vm_compute. reflexivity. Qed.

Lemma pairState_NoDup : NoDup (habitIds pairState).
Proof.
  rewrite pairState_ids. apply NoDup_cons. split.
  - intros Hin. apply list_elem_of_singleton in Hin. discriminate Hin.
  - apply NoDup_singleton.
Qed.

Lemma toggleHabit_one_mark_witness :
  completions defaultState !! completionKey "1" (formatDate sampleDay) = None
  /\ isHabitCompleted (toggleHabit "1" sampleDay defaultState) "1" sampleDay = true
  /\ "2" ≠ "1"
  /\ isHabitCompleted (toggleHabit "1" sampleDay defaultState) "2" sampleDay
     = isHabitCompleted defaultState "2" sampleDay
  /\ formatDate dayBefore ≠ formatDate sampleDay
  /\ isHabitCompleted (toggleHabit "1" sampleDay defaultState) "1" dayBefore
     = isHabitCompleted defaultState "1" dayBefore.
Proof.
  assert (Hne : "2" ≠ "1") by discriminate.
  pose proof (@toggleHabit_one_mark isoStorage "1" sampleDay defaultState)
    as (_ & Hfirst & Hhabit & Hday).
  split; [reflexivity|]. split; [apply Hfirst; reflexivity|].
  split; [exact Hne|]. split; [exact (Hhabit "2" Hne)|].
  split; [exact dayBefore_other_key|]. exact (Hday dayBefore dayBefore_other_key).
Defined.

Lemma toggleHabit_other_marks_witness :
  noDash "1" = true /\ noDash "2" = true
  /\ ("2" ≠ "1" \/ formatDate dayBefore ≠ formatDate sampleDay)
  /\ isHabitCompleted (toggleHabit "1" sampleDay busyState) "2" dayBefore
     = isHabitCompleted busyState "2" dayBefore.
Proof.
  assert (Hother : "2" ≠ "1" \/ formatDate dayBefore ≠ formatDate sampleDay).
  { left. discriminate. }
  split; [reflexivity|]. split; [reflexivity|]. split; [exact Hother|].
  exact (@toggleHabit_other_marks isoStorage "1" "2" sampleDay dayBefore busyState
           eq_refl eq_refl Hother).
Defined.

Lemma addHabit_fresh_id_witness :
  6 ≠ 5
  /\ habitIds (addHabit 6 "Read" "*" (addHabit 5 "Run" "*" defaultState)) = ["5"; "6"]
  /\ NoDup (habitIds defaultState) /\ (pretty 5 ∉ habitIds defaultState)
  /\ NoDup (habitIds (addHabit 5 "Run" "*" defaultState))
  /\ 0 <= 5 /\ noDash (pretty 5) = true.
Proof.
  assert (Hne : 6 ≠ 5) by discriminate.
  assert (Hnodup : NoDup (habitIds defaultState)) by apply NoDup_nil_2.
  assert (Hfresh : pretty 5 ∉ habitIds defaultState) by apply not_elem_of_nil.
  assert (Hclock : 0 <= 5) by lia.
  pose proof (@addHabit_fresh_id 5 "Run" "*" defaultState)
    as (_ & Htwo & Hkeep & Hdash).
  split; [exact Hne|]. split; [exact (proj1 (Htwo 6 "Read" "*" Hne))|].
  split; [exact Hnodup|]. split; [exact Hfresh|].
  split; [exact (Hkeep Hnodup Hfresh)|]. split; [exact Hclock|exact (Hdash Hclock)].
Defined.

Lemma deleteHabit_absent_witness :
  ("7" ∉ habitIds pairState)
  /\ deleteHabit "7" pairState = pairState
  /\ NoDup (habitIds pairState)
  /\ NoDup (habitIds (deleteHabit "1" pairState)).
Proof.
  assert (Habsent : "7" ∉ habitIds pairState).
  { rewrite pairState_ids. intros Hin.
    apply elem_of_cons in Hin as [Hin|Hin]; [discriminate Hin|].
    apply list_elem_of_singleton in Hin. discriminate Hin. }
  split; [exact Habsent|].
  split; [exact (proj1 (@deleteHabit_absent "7" pairState) Habsent)|].
  split; [exact pairState_NoDup|].
  exact (proj2 (proj2 (proj2 (@deleteHabit_absent "1" pairState)))
           pairState_NoDup).
Defined.

Lemma addHabit_deleteHabit_witness :
  (pretty 5 ∉ habitIds defaultState)
  /\ deleteHabit (pretty 5) (addHabit 5 "Run" "*" defaultState) = defaultState.
Proof.
  assert (Hfresh : pretty 5 ∉ habitIds defaultState) by apply not_elem_of_nil.
  split; [exact Hfresh|].
  exact (proj1 (@addHabit_deleteHabit 5 "Run" "*" defaultState) Hfresh).
Defined.

Lemma toggleHabit_count_witness :
  NoDup (habitIds pairState) /\ ("1" ∈ habitIds pairState)
  /\ length (completedHabits (toggleHabit "1" sampleDay pairState) (formatDate sampleDay))
     = 1%nat
  /\ ("7" ∉ habitIds pairState)
  /\ getCompletionRate (toggleHabit "7" sampleDay pairState) sampleDay
     = getCompletionRate pairState sampleDay.
Proof.
  assert (Hin : "1" ∈ habitIds pairState).
  { rewrite pairState_ids. apply list_elem_of_here. }
  assert (Habsent : "7" ∉ habitIds pairState).
  { rewrite pairState_ids. intros H7.
    apply elem_of_cons in H7 as [H7|H7]; [discriminate H7|].
    apply list_elem_of_singleton in H7. discriminate H7. }
  split; [exact pairState_NoDup|]. split; [exact Hin|]. split.
  - rewrite (proj1 (@toggleHabit_count isoStorage "1" sampleDay pairState)
               pairState_NoDup Hin).
    reflexivity.
  - split; [exact Habsent|].
    exact (proj2 (proj2 (proj2 (@toggleHabit_count isoStorage "7" sampleDay pairState))
                    Habsent)).
Defined.

Lemma toggleHabit_rate_other_day_witness :
  noDash "1" = true
  /\ Forall (fun x => noDash (Habit.id x) = true) (habits pairState)
  /\ formatDate dayBefore ≠ formatDate sampleDay
  /\ getCompletionRate (toggleHabit "1" sampleDay pairState) dayBefore
     = getCompletionRate pairState dayBefore.
Proof.
  assert (Hids : Forall (fun x => noDash (Habit.id x) = true) (habits pairState)).
  { vm_compute. repeat constructor. }
  split; [reflexivity|]. split; [exact Hids|]. split; [exact dayBefore_other_key|].
  exact (@toggleHabit_rate_other_day isoStorage "1" sampleDay dayBefore pairState
           eq_refl Hids dayBefore_other_key).
Defined.

Lemma getCompletionRate_range_witness :
  (length (habits busyState) <= 200)%nat
  /\ 0 <= getCompletionRate busyState sampleDay <= 100.
Proof.
  assert (Hsize : (length (habits busyState) <= 200)%nat) by (vm_compute; lia).
  split; [exact Hsize|].
  exact (proj1 (@getCompletionRate_range isoStorage busyState sampleDay Hsize)).
Defined.

Lemma updateLog_overwrites_witness :
  formatDate (mkDate 20759 5000) = formatDate sampleDay
  /\ getLog (updateLog sampleDay "rain" defaultState) (mkDate 20759 5000) = "rain"
  /\ formatDate dayBefore ≠ formatDate sampleDay
  /\ getLog (updateLog sampleDay "rain" defaultState) dayBefore
     = getLog defaultState dayBefore.
Proof.
  assert (Hsame : formatDate (mkDate 20759 5000) = formatDate sampleDay)
    by reflexivity.
  pose proof (@updateLog_overwrites isoStorage sampleDay "rain" defaultState)
    as (_ & _ & Hkey & Hother).
  split; [exact Hsame|]. split; [exact (Hkey _ Hsame)|].
  split; [exact dayBefore_other_key|]. exact (Hother _ dayBefore_other_key).
Defined.

Lemma deleteTodo_removes_witness :
  formatDate dayBefore ≠ formatDate sampleDay
  /\ todos (deleteTodo sampleDay "5" milkState) !! formatDate dayBefore
     = todos milkState !! formatDate dayBefore.
Proof.
  split; [exact dayBefore_other_key|].
  exact (proj2 (proj2 (proj2 (@deleteTodo_removes isoStorage sampleDay "5" milkState)))
           _ dayBefore_other_key).
Defined.

Lemma addTodo_deleteTodo_witness :
  (pretty 5 ∉ TodoItem.id <$> getTodos defaultState sampleDay)
  /\ getTodos (deleteTodo sampleDay (pretty 5)
                (addTodo 5 sampleDay "Buy milk" None None defaultState)) sampleDay
     = getTodos defaultState sampleDay.
Proof.
  assert (Hfresh : pretty 5 ∉ TodoItem.id <$> getTodos defaultState sampleDay)
    by apply not_elem_of_nil.
  split; [exact Hfresh|].
  exact (proj2 (@addTodo_deleteTodo isoStorage 5 sampleDay "Buy milk" None None
                  defaultState) Hfresh).
Defined.

Lemma toggleTodo_twice_witness :
  getTodos doingState sampleDay !! 0%nat
  = Some {| TodoItem.id := "5";
            TodoItem.text := "Write";
            TodoItem.completed := false;
            TodoItem.status := TodoStatus.doing;
            TodoItem.priority := TodoPriority.medium;
            TodoItem.createdAt := "2026-11-02" |}
  /\ getTodos (toggleTodo sampleDay "5" (toggleTodo sampleDay "5" doingState)) sampleDay
     !! 0%nat
     = Some {| TodoItem.id := "5";
               TodoItem.text := "Write";
               TodoItem.completed := false;
               TodoItem.status := TodoStatus.todo;
               TodoItem.priority := TodoPriority.medium;
               TodoItem.createdAt := "2026-11-02" |}.
Proof.
  split; [reflexivity|].
  exact (proj1 (@toggleTodo_twice isoStorage sampleDay "5" doingState) 0%nat
           {| TodoItem.id := "5";
              TodoItem.text := "Write";
              TodoItem.completed := false;
              TodoItem.status := TodoStatus.doing;
              TodoItem.priority := TodoPriority.medium;
              TodoItem.createdAt := "2026-11-02" |}
           eq_refl eq_refl).
Defined.

Lemma updateTodo_merges_witness :
  getTodos milkState sampleDay !! 0%nat
  = Some {| TodoItem.id := "5";
            TodoItem.text := "Buy milk";
            TodoItem.completed := false;
            TodoItem.status := TodoStatus.todo;
            TodoItem.priority := TodoPriority.high;
            TodoItem.createdAt := "2026-11-02" |}
  /\ getTodos (updateTodo sampleDay "5" (statusOnly TodoStatus.doing) milkState) sampleDay
     !! 0%nat
     = Some {| TodoItem.id := "5";
               TodoItem.text := "Buy milk";
               TodoItem.completed := false;
               TodoItem.status := TodoStatus.doing;
               TodoItem.priority := TodoPriority.high;
               TodoItem.createdAt := "2026-11-02" |}.
Proof.
  split; [reflexivity|].
  exact (proj1 (proj2 (@updateTodo_merges isoStorage sampleDay "5"
                         (statusOnly TodoStatus.doing) milkState)) 0%nat
           {| TodoItem.id := "5";
              TodoItem.text := "Buy milk";
              TodoItem.completed := false;
              TodoItem.status := TodoStatus.todo;
              TodoItem.priority := TodoPriority.high;
              TodoItem.createdAt := "2026-11-02" |}
           eq_refl eq_refl).
Defined.

Lemma defaultState_inSync : allInSync defaultState.
Proof. intros key l Hl. simpl in Hl. rewrite lookup_empty in Hl. discriminate Hl. Qed.

Lemma defaultState_filed : filedByDate defaultState.
Proof. intros key l Hl. simpl in Hl. rewrite lookup_empty in Hl. discriminate Hl. Qed.

Lemma allInSync_kept_witness :
  allInSync defaultState
  /\ allInSync milkState
  /\ keepsProgress TodoItem.no_update
  /\ allInSync (updateTodo sampleDay "5" TodoItem.no_update defaultState).
Proof.
  assert (Hkeeps : keepsProgress TodoItem.no_update) by (split; reflexivity).
  pose proof (@allInSync_kept isoStorage defaultState defaultState_inSync)
    as (Hadd & _ & _ & Hupdate & _).
  split; [exact defaultState_inSync|].
  split; [exact (Hadd 5 sampleDay "Buy milk" (Some TodoPriority.high)
                   (Some TodoStatus.todo))|].
  split; [exact Hkeeps|]. exact (Hupdate sampleDay "5" TodoItem.no_update Hkeeps).
Defined.

Lemma filedByDate_kept_witness :
  filedByDate defaultState
  /\ filedByDate milkState
  /\ TodoItem.createdAt' (statusOnly TodoStatus.doing) = None
  /\ filedByDate (updateTodo sampleDay "5" (statusOnly TodoStatus.doing) defaultState).
Proof.
  pose proof (@filedByDate_kept isoStorage defaultState defaultState_filed)
    as (Hadd & _ & _ & Hupdate & _).
  split; [exact defaultState_filed|].
  split; [exact (Hadd 5 sampleDay "Buy milk" (Some TodoPriority.high)
                   (Some TodoStatus.todo))|].
  split; [reflexivity|].
  exact (Hupdate sampleDay "5" (statusOnly TodoStatus.doing) eq_refl).
Defined.

Lemma todo_ids_kept_witness :
  TodoItem.id' (statusOnly TodoStatus.doing) = None
  /\ TodoItem.id <$> getTodos (updateTodo sampleDay "5" (statusOnly TodoStatus.doing)
                                milkState) sampleDay
     = TodoItem.id <$> getTodos milkState sampleDay
  /\ NoDup (TodoItem.id <$> getTodos defaultState sampleDay)
  /\ (pretty 5 ∉ TodoItem.id <$> getTodos defaultState sampleDay)
  /\ NoDup (TodoItem.id <$> getTodos milkState sampleDay)
  /\ NoDup (TodoItem.id <$> getTodos (deleteTodo sampleDay "5" milkState) sampleDay).
Proof.
  assert (Hnodup : NoDup (TodoItem.id <$> getTodos defaultState sampleDay))
    by apply NoDup_nil_2.
  assert (Hfresh : pretty 5 ∉ TodoItem.id <$> getTodos defaultState sampleDay)
    by apply not_elem_of_nil.
  pose proof (proj2 (proj2 (proj2 (@todo_ids_kept isoStorage sampleDay "5" defaultState)))
                5 "Buy milk" (Some TodoPriority.high) (Some TodoStatus.todo)
                Hnodup Hfresh) as Hmilk.
  split; [reflexivity|].
  split; [exact (proj1 (proj2 (@todo_ids_kept isoStorage sampleDay "5" milkState))
                   (statusOnly TodoStatus.doing) eq_refl)|].
  split; [exact Hnodup|]. split; [exact Hfresh|]. split; [exact Hmilk|].
  exact (proj1 (proj2 (proj2 (@todo_ids_kept isoStorage sampleDay "5" milkState)))
           Hmilk).
Defined.

Lemma getCompletionHistory_grows_witness :
  -1 <= 0 /\ getCompletionHistory busyState sampleDay (-1) = Some []
  /\ 0 <= 2
  /\ Z.abs (timeValue (daysBefore sampleDay 2)) <= maxTimeValue
  /\ localTime (timeValue (daysBefore sampleDay 2)) = daysBefore sampleDay 2
  /\ getCompletionHistory busyState sampleDay (2 + 1)
     = cons {| Point.date := "Oct 31"; Point.rate := 0 |}
       <$> getCompletionHistory busyState sampleDay 2.
Proof.
  assert (Hneg : -1 <= 0) by lia. assert (Hpos : 0 <= 2) by lia.
  assert (Hrange : Z.abs (timeValue (daysBefore sampleDay 2)) <= maxTimeValue)
    by (apply Z.leb_le; vm_compute; reflexivity).
  assert (Hexists : localTime (timeValue (daysBefore sampleDay 2))
                    = daysBefore sampleDay 2) by reflexivity.
  split; [exact Hneg|].
  split; [exact (proj1 (@getCompletionHistory_grows isoStorage utcHost busyState
                          sampleDay (-1)) Hneg)|].
  split; [exact Hpos|]. split; [exact Hrange|]. split; [exact Hexists|].
  rewrite (proj2 (proj2 (@getCompletionHistory_grows isoStorage utcHost busyState
                           sampleDay 2)) Hpos Hrange Hexists).
  vm_compute. reflexivity.
Defined.

Lemma todo_mutations_commute_witness :
  TodoMutation sampleDay (toggleTodo sampleDay "5")
  /\ TodoMutation dayBefore (addTodo 6 dayBefore "Call" None None)
  /\ formatDate sampleDay ≠ formatDate dayBefore
  /\ toggleTodo sampleDay "5" (addTodo 6 dayBefore "Call" None None milkState)
     = addTodo 6 dayBefore "Call" None None (toggleTodo sampleDay "5" milkState).
Proof.
  assert (Hdays : formatDate sampleDay ≠ formatDate dayBefore).
  { intros Heq. exact (dayBefore_other_key (eq_sym Heq)). }
  split; [constructor|]. split; [constructor|]. split; [exact Hdays|].
  exact (@todo_mutations_commute isoStorage sampleDay dayBefore _ _
           (mutation_toggle sampleDay "5")
           (mutation_add dayBefore 6 "Call" None None) Hdays milkState).
Defined.

Lemma deleteHabit_count_witness :
  NoDup (habitIds pairState) /\ ("1" ∈ habitIds pairState)
  /\ S (length (habits (deleteHabit "1" pairState))) = length (habits pairState).
Proof.
  assert (Hin : "1" ∈ habitIds pairState).
  { rewrite pairState_ids. apply list_elem_of_here. }
  split; [exact pairState_NoDup|]. split; [exact Hin|].
  exact (proj1 (@deleteHabit_count "1" pairState) pairState_NoDup Hin).
Defined.
